(** * depbackend: the map-rendering engine of [pylib/depbackend/auto/mapper.py]

    A shallow embedding of the request handling in [mapper.py]: the time window
    resolver ([get_ts_ts2]), the cache key ([get_mckey]) and the map routine
    ([make_map]) with its freshness gate, its three aggregate queries, the
    colour-bin selection and the optional annotations.

    Conventions.
    - Python [int] is [Z]; Python [float] and SQL numerics are exact rationals
      [Q]; a NaN or SQL NULL is [None].
    - Exceptions are values of [exn]; a routine that may raise and that talks
      to the database runs in the monad [M], which carries the result and the
      list of [event]s (queries issued, collaborator calls) in order.
    - Collaborators that live outside the repository (pyiem's [RAMPS] and
      [pretty_bins], pandas' percentile, [datetime.strptime], float printing)
      are fields of the record [Externals]; every theorem holds for all of
      them.
    - No query has an ORDER BY: the rows of an aggregate query come in the
      order of the database, which is a field of the [store]. *)

From Stdlib Require Import ZArith QArith Qround List String Ascii Bool Lia.
From Stdlib Require Import Permutation.
From Stdlib Require Import DecimalString DecimalZ.
Import ListNotations.

Open Scope string_scope.
Open Scope Z_scope.

(** String equality, kept apart from the integer test [=?]. *)
Infix "=s?" := String.eqb (at level 70, no associativity).

(** ** Exceptions and the effect monad *)

Inductive exn : Type :=
| NoDataFound (msg : string)
| ValueError
| TypeError
| KeyError
| IndexError
| ProgrammingError
| OverflowError
| ZeroDivisionError
| FileNotFoundError.

Inductive result (A : Type) : Type :=
| Ok (a : A)
| Err (e : exn).
Arguments Ok {A} a.
Arguments Err {A} e.

(** ** Calendar dates: [datetime.date] *)

Record date : Type := mkdate { year : Z; month : Z; day : Z }.

Definition is_leap (y : Z) : bool :=
  ((y mod 4 =? 0) && negb (y mod 100 =? 0)) || (y mod 400 =? 0).

Definition days_in_month (y m : Z) : Z :=
  if m =? 2 then (if is_leap y then 29 else 28)
  else if (m =? 4) || (m =? 6) || (m =? 9) || (m =? 11) then 30
  else 31.

Definition valid_ymd (y m d : Z) : bool :=
  (1 <=? y) && (y <=? 9999) && (1 <=? m) && (m <=? 12)
  && (1 <=? d) && (d <=? days_in_month y m).

Definition valid_date (t : date) : bool := valid_ymd (year t) (month t) (day t).

(** A Python [int] that fits a C [int]. *)
Definition fits_c_int (n : Z) : bool := (- 2 ^ 31 <=? n) && (n <=? 2 ^ 31 - 1).

(** [date(year, month, day)]: the three arguments are read as C ints first,
    with an [OverflowError] for one that does not fit, and are checked
    against the calendar next, with a [ValueError] outside of it. *)
Definition new_date (y m d : Z) : result date :=
  if fits_c_int y && fits_c_int m && fits_c_int d then
    if valid_ymd y m d then Ok (mkdate y m d) else Err ValueError
  else Err OverflowError.

(** Dates compare field by field, year first. *)
Definition date_compare (a b : date) : comparison :=
  match year a ?= year b with
  | Eq => match month a ?= month b with
          | Eq => day a ?= day b
          | c => c
          end
  | c => c
  end.

Definition date_eqb (a b : date) : bool :=
  match date_compare a b with Eq => true | _ => false end.
Definition date_ltb (a b : date) : bool :=
  match date_compare a b with Lt => true | _ => false end.
Definition date_leb (a b : date) : bool :=
  match date_compare a b with Gt => false | _ => true end.

(** [a > b] as Python writes it. *)
Definition date_gtb (a b : date) : bool := date_ltb b a.

(** [date.toordinal()], used by [(ts2 - ts).days]. *)
Definition days_before_year (y : Z) : Z :=
  let p := y - 1 in p * 365 + p / 4 - p / 100 + p / 400.

Fixpoint days_before_month_aux (y : Z) (k : nat) : Z :=
  match k with
  | O => 0
  | S k' => days_before_month_aux y k' + days_in_month y (Z.of_nat k)
  end.

Definition days_before_month (y m : Z) : Z :=
  days_before_month_aux y (Z.to_nat (m - 1)).

Definition toordinal (t : date) : Z :=
  days_before_year (year t) + days_before_month (year t) (month t) + day t.

(** [(b - a).days] *)
Definition days_between (a b : date) : Z := toordinal b - toordinal a.

(** [t + timedelta(days=1)], the day after [t]. *)
Definition next_day (t : date) : date :=
  if day t <? days_in_month (year t) (month t)
  then mkdate (year t) (month t) (day t + 1)
  else if month t <? 12 then mkdate (year t) (month t + 1) 1
  else mkdate (year t + 1) 1 1.

(** ** Text formatting *)

Definition digit (n : Z) : ascii := ascii_of_nat (48 + Z.to_nat (n mod 10)).

Definition pad2 (n : Z) : string :=
  String (digit (n / 10)) (String (digit n) "").

(** [f"{n}"] for a Python [int]. *)
Definition str_int (n : Z) : string := NilZero.string_of_int (Z.to_int n).

(** [f"{ts:%Y%m%d}"]; the C library prints [%Y] without padding, so a year
    below 1000 takes fewer than four digits. *)
Definition strftime_Ymd (t : date) : string :=
  str_int (year t) ++ pad2 (month t) ++ pad2 (day t).

(** [f"{ts:%m%d}"], also PostgreSQL's [to_char(valid, 'mmdd')]. *)
Definition strftime_md (t : date) : string :=
  pad2 (month t) ++ pad2 (day t).

(** [f"{x}"] for an optional string: [None] prints as the text None. *)
Definition str_opt (s : option string) : string :=
  match s with
  | None => "None"
  | Some x => x
  end.

(** ** Collaborators outside the repository

    [RAMPS_english] is pyiem's [RAMPS["english"]]; [pretty_bins] is
    [pyiem.plot.util.pretty_bins]; [percentile95] is pandas'
    [describe(percentiles=[0.95])["95%"]] ([None] for NaN); [strptime_Ymd] is
    [datetime.strptime(_, "%Y-%m-%d")] followed by [.date()] ([None] when it
    raises); [str_float] prints a Python [float]; [percent_1f] is the
    formatting ["%.1f%%" % x] of a float, NaN and the infinities included. *)
Record Externals : Type := {
  RAMPS_english : list (list Q);
  pretty_bins : Q -> Q -> list Q;
  percentile95 : list (option Q) -> option Q;
  strptime_Ymd : string -> option date;
  str_float : Q -> string;
  percent_1f : option Q -> string
}.

(** ** The request environment ([Schema]) *)

Record environ : Type := {
  e_dpi : Z;
  e_year : Z;
  e_month : Z;
  e_day : Z;
  e_year2 : option Z;
  e_month2 : option Z;
  e_day2 : option Z;
  e_scenario : Z;
  e_v : string;
  e_huc : option string;
  e_zoom : Q;
  e_overview : bool;
  e_averaged : bool;
  e_progressbar : bool;
  e_cruse : bool;
  e_iowa : bool;
  e_mn : bool
}.

(** [x if y is None else y] *)
Definition default_to {A : Type} (x : A) (y : option A) : A :=
  match y with
  | None => x
  | Some b => b
  end.

(** [get_ts_ts2], lines 404-414. *)
Definition get_ts_ts2 (e : environ) : result (date * date) :=
  let year := e_year e in
  let month := e_month e in
  let day := e_day e in
  let year2 := default_to year (e_year2 e) in
  let month2 := default_to month (e_month2 e) in
  let day2 := default_to day (e_day2 e) in
  match new_date year month day with
  | Err x => Err x
  | Ok ts =>
      match new_date year2 month2 day2 with
      | Err x => Err x
      | Ok ts2 => Ok (ts, ts2)
      end
  end.

(** [get_mckey], lines 417-426. *)
Definition get_mckey (X : Externals) (e : environ) : result string :=
  match get_ts_ts2 e with
  | Err x => Err x
  | Ok (ts, ts2) =>
      let key :=
        "/auto/map.py/" ++ str_opt (e_huc e) ++ "/" ++ strftime_Ymd ts ++ "/"
        ++ strftime_Ymd ts2 ++ "/" ++ str_int (e_scenario e) ++ "/" ++ e_v e in
      let key :=
        if e_overview e
        then "/auto/map.py/" ++ str_opt (e_huc e) ++ "/"
             ++ str_float X (e_zoom e)
        else key in
      Ok key
  end.

(** ** Variable tables *)

Definition V2MULTI (v : string) : option Q :=
  if v =s? "avg_loss" then Some (4463 # 1000)%Q
  else if v =s? "qc_precip" then Some (1 / (254 # 10))%Q
  else if v =s? "avg_delivery" then Some (4463 # 1000)%Q
  else if v =s? "avg_runoff" then Some (1 / (254 # 10))%Q
  else if v =s? "dt" then Some 1%Q
  else if v =s? "slp" then Some 1%Q
  else None.

Definition V2UNITS (v : string) : option string :=
  if v =s? "avg_loss" then Some "tons/acre"
  else if v =s? "qc_precip" then Some "inches"
  else if v =s? "avg_delivery" then Some "tons/acre"
  else if v =s? "avg_runoff" then Some "inches"
  else if v =s? "dt" then Some "categorical"
  else if v =s? "slp" then Some "ratio"
  else None.

(** [v in ["dt", "slp"]] *)
Definition is_categorical (v : string) : bool := (v =s? "dt") || (v =s? "slp").

(** ** The store *)

(** A geometry travels through the queries untouched. *)
Definition geom : Type := string.

Record scenario_row : Type := {
  sc_id : Z;
  sc_huc12_scenario : option Z;
  sc_label : option string
}.

Record huc12_row : Type := {
  h_scenario : Z;
  huc_12 : string;
  states : string;
  simple_geom : geom;
  dominant_tillage : option Z;
  average_slope_ratio : option Q
}.

Record result_row : Type := {
  r_scenario : Z;
  r_huc_12 : string;
  valid : date;
  avg_loss : option Q;
  qc_precip : option Q;
  avg_delivery : option Q;
  avg_runoff : option Q
}.

(** One row of the data frame: [geom] and [data]. *)
Record df_row : Type := { df_geom : geom; df_data : option Q }.

(** The tables, and the place [pg_rank] that the database gives to a row of
    an answer: without an ORDER BY the rows arrive in the order of their
    places, which the queries do not control. *)
Record store : Type := {
  scenarios : list scenario_row;
  properties : list (string * string);
  huc12 : list huc12_row;
  results_by_huc12 : list result_row;
  pg_rank : df_row -> Z
}.

(** The metric column that [{v}] names in the two aggregate queries. *)
Definition column (v : string) : option (result_row -> option Q) :=
  if v =s? "avg_loss" then Some avg_loss
  else if v =s? "qc_precip" then Some qc_precip
  else if v =s? "avg_delivery" then Some avg_delivery
  else if v =s? "avg_runoff" then Some avg_runoff
  else None.

(** ** Effects: exceptions and the trace of database and collaborator calls *)

Inductive event : Type :=
| SelectHuc12Scenario (id : Z)       (* lines 193-196 *)
| SelectLastDate                     (* lines 200-202 *)
| ReadCategorical (colname : string) (* lines 233-246 *)
| ReadAveraged (v : string)          (* lines 248-270 *)
| ReadPeriodSum (v : string)         (* lines 273-293 *)
| CallPrettyBins (lo hi : Q)         (* line 319 *)
| SelectLabel (id : Z).              (* lines 148-151 *)

(** The three [read_postgis] calls are the aggregate queries. *)
Definition is_aggregate (ev : event) : bool :=
  match ev with
  | ReadCategorical _ | ReadAveraged _ | ReadPeriodSum _ => true
  | _ => false
  end.

Definition is_rebinning (ev : event) : bool :=
  match ev with
  | CallPrettyBins _ _ => true
  | _ => false
  end.

Definition M (A : Type) : Type := (result A * list event)%type.

Definition ret {A : Type} (a : A) : M A := (Ok a, []).
Definition raise {A : Type} (x : exn) : M A := (Err x, []).
Definition tell (ev : event) : M unit := (Ok tt, [ev]).

Definition bind {A B : Type} (m : M A) (k : A -> M B) : M B :=
  match m with
  | (Err x, l) => (Err x, l)
  | (Ok a, l) => let r := k a in (fst r, (l ++ snd r)%list)
  end.

Notation "x <- m ;; k" := (bind m (fun x => k))
  (at level 61, m at next level, right associativity).
Notation "m ;;; k" := (bind m (fun _ => k))
  (at level 61, right associativity).

(** [d[k]] on a dict: [KeyError] when the key is missing. *)
Definition dict_get {A : Type} (o : option A) : M A :=
  match o with
  | Some a => ret a
  | None => raise KeyError
  end.

(** [l[n]] on a list: [IndexError] past the end. *)
Definition list_get {A : Type} (l : list A) (n : nat) : M A :=
  match nth_error l n with
  | Some a => ret a
  | None => raise IndexError
  end.

(** [l[-1]] *)
Definition last_item {A : Type} (l : list A) : M A :=
  match rev l with
  | a :: _ => ret a
  | [] => raise IndexError
  end.

(** [l[0] = x] *)
Definition set_first {A : Type} (l : list A) (x : A) : M (list A) :=
  match l with
  | _ :: t => ret (x :: t)
  | [] => raise IndexError
  end.

(** ** SQL building blocks *)

(** [sum(col)]: NULLs are skipped, and a group of NULLs sums to NULL. *)
Definition sql_sum (xs : list (option Q)) : option Q :=
  fold_left
    (fun acc x =>
       match x, acc with
       | None, _ => acc
       | Some q, None => Some q
       | Some q, Some a => Some (a + q)%Q
       end)
    xs None.

(** [coalesce(x, d)] *)
Definition coalesce (x : option Q) (d : Q) : Q :=
  match x with
  | Some q => q
  | None => d
  end.

(** [x between lo and hi] on dates and on text. *)
Definition between_date (x lo hi : date) : bool :=
  date_leb lo x && date_leb x hi.

Definition between_text (x lo hi : string) : bool :=
  String.leb lo x && String.leb x hi.

(** [GROUP by huc_12]: one group per distinct key. *)
Definition group_by_huc_12 (rows : list result_row)
  : list (string * list result_row) :=
  map (fun k => (k, filter (fun r => r_huc_12 r =s? k) rows))
      (nodup string_dec (map r_huc_12 rows)).

(** [huc12 i LEFT JOIN data d ON (i.huc_12 = d.huc_12)]; the order of the
    joined rows is settled by [pg_order] when the answer is read. *)
Definition left_join (regions : list huc12_row) (data : list (string * option Q))
  : list (huc12_row * option Q) :=
  flat_map
    (fun i =>
       match filter (fun d => huc_12 i =s? fst d) data with
       | [] => [(i, None)]
       | ms => map (fun d => (i, snd d)) ms
       end)
    regions.

(** The rows of an answer in the order of the database: sorted by the place
    that [pg_rank] gives them. *)
Fixpoint pg_insert (rank : df_row -> Z) (r : df_row) (l : list df_row)
  : list df_row :=
  match l with
  | [] => [r]
  | x :: t => if rank r <=? rank x then r :: l else x :: pg_insert rank r t
  end.

Definition pg_order (rank : df_row -> Z) (rows : list df_row) : list df_row :=
  fold_right (pg_insert rank) [] rows.

(** The pieces that [huclimiter] is assembled from. *)
Inductive clause : Type :=
| Huc8Prefix (huc8 : string)     (* and substr(i.huc_12, 1, 8) = :huc8 *)
| Huc12Exact (huc12 : string)    (* and i.huc_12 = :huc12 *)
| StatesMatch (code : string).   (* and i.states ~* code *)

Definition to_upper (c : ascii) : ascii :=
  let n := nat_of_ascii c in
  if (97 <=? n)%nat && (n <=? 122)%nat then ascii_of_nat (n - 32) else c.

Fixpoint upper (s : string) : string :=
  match s with
  | EmptyString => EmptyString
  | String c r => String (to_upper c) (upper r)
  end.

(** [s ~* pat] for a pattern of plain letters: [pat] occurs in [s], case
    ignored. *)
Definition imatch (s pat : string) : bool :=
  match index 0 (upper pat) (upper s) with
  | Some _ => true
  | None => false
  end.

Definition clause_holds (i : huc12_row) (c : clause) : bool :=
  match c with
  | Huc8Prefix h => substring 0 8 (huc_12 i) =s? h
  | Huc12Exact h => huc_12 i =s? h
  | StatesMatch code => imatch (states i) code
  end.

(** [i.scenario = :huc12_scenario {huclimiter}]; a NULL parameter matches no
    row. *)
Definition in_scope (huc12_scenario : option Z) (huclimiter : list clause)
  (i : huc12_row) : bool :=
  match huc12_scenario with
  | Some s => (h_scenario i =? s) && forallb (clause_holds i) huclimiter
  | None => false
  end.

(** Lines 219-230. *)
Definition build_huclimiter (huc : option string) (e : environ) : list clause :=
  let huclimiter :=
    match huc with
    | None => []
    | Some h =>
        if (String.length h =? 8)%nat then [Huc8Prefix h]
        else if (String.length h =? 12)%nat then [Huc12Exact h]
        else []
    end in
  let huclimiter :=
    if e_iowa e then (huclimiter ++ [StatesMatch "IA"])%list else huclimiter in
  let huclimiter :=
    if e_mn e then (huclimiter ++ [StatesMatch "MN"])%list else huclimiter in
  huclimiter.

(** The categorical query, lines 233-246. *)
Definition read_categorical (conn : store) (huc12_scenario : option Z)
  (huclimiter : list clause) (v : string) : list df_row :=
  map (fun i =>
         {| df_geom := simple_geom i;
            df_data := if v =s? "dt"
                       then option_map inject_Z (dominant_tillage i)
                       else average_slope_ratio i |})
      (filter (in_scope huc12_scenario huclimiter) (huc12 conn)).

(** The [data] table of the averaged query, lines 251-256. *)
Definition data_averaged (conn : store) (scenario : Z)
  (col : result_row -> option Q) (ts ts2 : date) : list (string * option Q) :=
  let sday1 := strftime_md ts in
  let sday2 := strftime_md ts2 in
  let rows :=
    filter (fun r => (r_scenario r =? scenario)
                     && between_text (strftime_md (valid r)) sday1 sday2
                     && between_date (valid r) ts ts2)
           (results_by_huc12 conn) in
  map (fun g => (fst g,
                 option_map (fun s => (s / 10)%Q) (sql_sum (map col (snd g)))))
      (group_by_huc_12 rows).

(** The [data] table of the period query, lines 276-279. *)
Definition data_period (conn : store) (scenario : Z)
  (col : result_row -> option Q) (ts ts2 : date) : list (string * option Q) :=
  let rows :=
    filter (fun r => (r_scenario r =? scenario) && between_date (valid r) ts ts2)
           (results_by_huc12 conn) in
  map (fun g => (fst g, sql_sum (map col (snd g)))) (group_by_huc_12 rows).

(** The outer SELECT shared by both aggregate queries, lines 258-262 and
    281-285. *)
Definition select_joined (conn : store) (data : list (string * option Q))
  (huc12_scenario : option Z) (huclimiter : list clause) (dbcol : Q)
  : list df_row :=
  map (fun p =>
         {| df_geom := simple_geom (fst p);
            df_data := Some (coalesce (snd p) 0 * dbcol)%Q |})
      (filter (fun p => in_scope huc12_scenario huclimiter (fst p))
              (left_join (huc12 conn) data)).

Definition read_averaged (conn : store) (scenario : Z) (huc12_scenario : option Z)
  (huclimiter : list clause) (col : result_row -> option Q) (ts ts2 : date)
  (dbcol : Q) : list df_row :=
  select_joined conn (data_averaged conn scenario col ts ts2)
                huc12_scenario huclimiter dbcol.

Definition read_period (conn : store) (scenario : Z) (huc12_scenario : option Z)
  (huclimiter : list clause) (col : result_row -> option Q) (ts ts2 : date)
  (dbcol : Q) : list df_row :=
  select_joined conn (data_period conn scenario col ts ts2)
                huc12_scenario huclimiter dbcol.

(** ** The rendered map *)

Inductive colormap : Type := James | DepErosion.

(** The four shapes of the title, lines 179-191. *)
Inductive title : Type :=
| TitleDay (ts : date)
| TitlePeriod (ts ts2 : date)
| TitleAveragedYears (y1 y2 : Z)
| TitleAveragedBetween (ts ts2 : date).

(** A Python [float]: [None] is NaN. *)
Definition float : Type := option Q.

Record progress_bar : Type := {
  pb_label : string;
  pb_avgval : float;
  pb_proportion : Q
}.

Record map_image : Type := {
  img_cmap : colormap;
  img_title : title;
  img_df : list df_row;
  img_bins : list Q;
  img_label : option string;
  img_counties : bool;
  img_units : string;
  img_progress : option progress_bar;
  img_badge : option float;
  img_dpi : Z
}.

(** [p > t] on floats *)
Definition Qgtb (p t : Q) : bool := negb (Qle_bool p t).

(** [range(lo, hi)] *)
Definition range (lo hi : Z) : list Z :=
  map (fun k => lo + Z.of_nat k) (seq 0 (Z.to_nat (hi - lo))).

(** [df["data"].mean()]: NaN when no value is present. *)
Definition mean (xs : list (option Q)) : float :=
  let present := flat_map (fun x => match x with Some q => [q] | None => [] end) xs in
  match present with
  | [] => None
  | _ => Some (fold_left Qplus present 0 / inject_Z (Z.of_nat (List.length present)))%Q
  end.

Definition gate_message : string := "Data Not Availale Yet, check back later.".
Definition empty_message : string := "No Data Found for this scenario and date".

Section Engine.

Variable X : Externals.

(** [label_scenario], lines 144-164; the label text it draws, if any. *)
Definition label_scenario (scenario : Z) (conn : store) : M (option string) :=
  if scenario =? 0 then ret None
  else
    tell (SelectLabel scenario) ;;;
    match filter (fun r => sc_id r =? scenario) (scenarios conn) with
    | [] => ret None
    | r :: _ =>
        let label := sc_label r in
        ret (Some ("Scenario " ++ str_int scenario ++ ": " ++ str_opt label))
    end.

(** Lines 179-191. *)
Definition make_title (ts ts2 : date) (e : environ) : title * string :=
  if negb (date_eqb ts ts2) then
    if e_averaged e then
      if (strftime_md ts =s? "0101") && (strftime_md ts2 =s? "1231")
      then (TitleAveragedYears (year ts) (year ts2), "/yr")
      else (TitleAveragedBetween ts ts2, "/yr")
    else (TitlePeriod ts ts2, "")
  else (TitleDay ts, "").

(** Lines 193-197. *)
Definition select_huc12_scenario (conn : store) (scenario : Z) : M (option Z) :=
  tell (SelectHuc12Scenario scenario) ;;;
  match filter (fun r => sc_id r =? scenario) (scenarios conn) with
  | [] => raise TypeError
  | r :: _ => ret (sc_huc12_scenario r)
  end.

(** Lines 200-206: the last-available date, or the epoch without a marker. *)
Definition select_last_date (conn : store) : M date :=
  tell SelectLastDate ;;;
  match filter (fun kv => fst kv =s? "last_date_0") (properties conn) with
  | [] => ret (mkdate 2007 1 1)
  | kv :: _ =>
      match strptime_Ymd X (snd kv) with
      | Some d => ret d
      | None => raise ValueError
      end
  end.

(** Lines 207-209. *)
Definition check_freshness (ts ts2 lastts : date) : M unit :=
  let floor := mkdate 2007 1 1 in
  if date_gtb ts lastts || date_gtb ts2 lastts || date_ltb ts floor
  then raise (NoDataFound gate_message)
  else ret tt.

(** Lines 231-293: the query that fits the variable and the averaged flag;
    its rows come in the order of the database. *)
Definition read_postgis (conn : store) (huc12_scenario : option Z)
  (huclimiter : list clause) (ts ts2 : date) (scenario : Z) (v : string)
  (dbcol : Q) (e : environ) : M (list df_row) :=
  if is_categorical v then
    let colname := if v =s? "dt" then "dominant_tillage"
                   else "average_slope_ratio" in
    tell (ReadCategorical colname) ;;;
    ret (pg_order (pg_rank conn)
                  (read_categorical conn huc12_scenario huclimiter v))
  else if e_averaged e then
    tell (ReadAveraged v) ;;;
    match column v with
    | None => raise ProgrammingError
    | Some col =>
        ret (pg_order (pg_rank conn)
                      (read_averaged conn scenario huc12_scenario huclimiter
                                     col ts ts2 dbcol))
    end
  else
    tell (ReadPeriodSum v) ;;;
    match column v with
    | None => raise ProgrammingError
    | Some col =>
        ret (pg_order (pg_rank conn)
                      (read_period conn scenario huc12_scenario huclimiter
                                   col ts ts2 dbcol))
    end.

(** Lines 311-315. *)
Definition base_ramp (ts ts2 : date) : M (list Q) :=
  if date_eqb ts ts2 then list_get (RAMPS_english X) 0
  else list_get (RAMPS_english X) 1.

(** Lines 311-324. *)
Definition select_bins (ts ts2 : date) (v : string) (df : list df_row)
  : M (list Q) :=
  bins <- base_ramp ts ts2 ;;
  let p95 := percentile95 X (map df_data df) in
  bins <- match p95 with
          | None => ret bins
          | Some p =>
              top <- last_item bins ;;
              if Qgtb p top then
                tell (CallPrettyBins 0 p) ;;;
                set_first (pretty_bins X 0 p) (1 # 100)%Q
              else ret bins
          end ;;
  let bins := if v =s? "dt" then map inject_Z (range 1 8) else bins in
  let bins := if v =s? "slp"
              then [0; 1 # 100; 3 # 100; 5 # 100; 7 # 100; 1 # 10; 1 # 2]%Q
              else bins in
  ret bins.

(** Lines 350-382: the mean, and the bar drawn when [progressbar] is set. *)
Definition draw_progress (ts ts2 : date) (df : list df_row) (e : environ)
  : option float * option progress_bar :=
  if e_progressbar e then
    let avgval := mean (map df_data df) in
    let _ll := if e_averaged e then str_int (year ts) else "Avg" in
    let bar_width := (698 # 1000)%Q in
    let proportion :=
      (inject_Z (days_between ts ts2) / 365 * bar_width)%Q in
    (Some avgval,
     Some {| pb_label := _ll; pb_avgval := avgval; pb_proportion := proportion |})
  else (None, None).

(** Lines 383-397: the crude conversion divides whatever [avgval] holds. *)
Definition draw_cruse (avgval : option float) (e : environ) : M (option float) :=
  if e_cruse e then
    match avgval with
    | None => raise TypeError
    | Some a =>
        let depth := option_map (fun q => (q / 5)%Q) a in
        ret (Some depth)
    end
  else ret None.

(** [make_map], lines 167-401. *)
Definition make_map (conn : store) (huc : option string) (ts ts2 : date)
  (scenario : Z) (v : string) (e : environ) : M map_image :=
  let cmap := if (v =s? "qc_precip") || (v =s? "avg_runoff")
              then James else DepErosion in
  let '(title, aextra) := make_title ts ts2 e in
  huc12_scenario <- select_huc12_scenario conn scenario ;;
  lastts <- select_last_date conn ;;
  check_freshness ts ts2 lastts ;;;
  dbcol <- dict_get (V2MULTI v) ;;
  let huclimiter := build_huclimiter huc e in
  df <- read_postgis conn huc12_scenario huclimiter ts ts2 scenario v dbcol e ;;
  (match df with
   | [] => raise (NoDataFound empty_message)
   | _ => ret tt
   end) ;;;
  bins <- select_bins ts ts2 v df ;;
  label <- label_scenario scenario conn ;;
  units <- dict_get (V2UNITS v) ;;
  let '(avgval, bar) := draw_progress ts ts2 df e in
  badge <- draw_cruse avgval e ;;
  ret {| img_cmap := cmap;
         img_title := title;
         img_df := df;
         img_bins := bins;
         img_label := label;
         img_counties := match huc with Some _ => true | None => false end;
         img_units := units ++ aextra;
         img_progress := bar;
         img_badge := badge;
         img_dpi := e_dpi e |}.

End Engine.

(** ** Reference notions the properties are stated against *)


(** The sum of a column, a missing value counting as nothing. *)
Definition total (xs : list (option Q)) : Q :=
  fold_right (fun x acc => (coalesce x 0 + acc)%Q) 0%Q xs.

(** The value that the join puts next to the region [h]. *)
Definition joined (G : option Q -> option Q) (col : result_row -> option Q)
  (rows : list result_row) (h : string) : option Q :=
  if in_dec string_dec h (map r_huc_12 rows)
  then G (sql_sum (map col (filter (fun r => r_huc_12 r =s? h) rows)))
  else None.

(** Month and day of [a] no later in the year than those of [b]. *)
Definition md_leb (a b : date) : bool :=
  (month a <? month b) || ((month a =? month b) && (day a <=? day b)).


(** Bin [0] of a sequence of edges is the interval from the first edge up to
    the second. *)
Definition in_lowest_bin (bins : list Q) (x : Q) : bool :=
  match bins with
  | b0 :: b1 :: _ => Qle_bool b0 x && negb (Qle_bool b1 x)
  | _ => false
  end.

(** [x] lies in some bin of the edges: at or above the first edge and below
    the last. *)
Definition in_some_bin (bins : list Q) (x : Q) : bool :=
  match bins, rev bins with
  | b0 :: _, top :: _ => Qle_bool b0 x && negb (Qle_bool top x)
  | _, _ => false
  end.

(** The key of a request outside overview mode, from its five fields. *)
Definition detail_key (region : string) (ts ts2 : date) (scenario : Z)
  (v : string) : string :=
  "/auto/map.py/" ++ region ++ "/" ++ strftime_Ymd ts ++ "/"
  ++ strftime_Ymd ts2 ++ "/" ++ str_int scenario ++ "/" ++ v.

(** No [/] occurs in the text. *)
Fixpoint no_slash (s : string) : bool :=
  match s with
  | EmptyString => true
  | String c r => negb (Ascii.eqb c "/") && no_slash r
  end.

(** The five fields that a key outside overview mode is printed from: the
    region as it prints, the resolved dates, the scenario and the variable. *)
Record fields : Type := {
  f_region : string;
  f_start : date;
  f_end : date;
  f_scenario : Z;
  f_variable : string
}.

Definition key_fields (e : environ) : result fields :=
  match get_ts_ts2 e with
  | Err x => Err x
  | Ok (ts, ts2) =>
      Ok {| f_region := str_opt (e_huc e); f_start := ts; f_end := ts2;
            f_scenario := e_scenario e; f_variable := e_v e |}
  end.

(** Two sets of fields that differ in exactly one place. *)
Definition differ_in_one (a b : fields) : Prop :=
  (f_region a <> f_region b /\ f_start a = f_start b /\ f_end a = f_end b
   /\ f_scenario a = f_scenario b /\ f_variable a = f_variable b)
  \/ (f_region a = f_region b /\ f_start a <> f_start b /\ f_end a = f_end b
      /\ f_scenario a = f_scenario b /\ f_variable a = f_variable b)
  \/ (f_region a = f_region b /\ f_start a = f_start b /\ f_end a <> f_end b
      /\ f_scenario a = f_scenario b /\ f_variable a = f_variable b)
  \/ (f_region a = f_region b /\ f_start a = f_start b /\ f_end a = f_end b
      /\ f_scenario a <> f_scenario b /\ f_variable a = f_variable b)
  \/ (f_region a = f_region b /\ f_start a = f_start b /\ f_end a = f_end b
      /\ f_scenario a = f_scenario b /\ f_variable a <> f_variable b).

(** The fixed edges of the two categorical variables, lines 322 and 324. *)
Definition dt_bins : list Q := [1; 2; 3; 4; 5; 6; 7]%Q.
Definition slp_bins : list Q :=
  [0; 1 # 100; 3 # 100; 5 # 100; 7 # 100; 1 # 10; 1 # 2]%Q.

(** The ramp that lines 311-315 start from. *)
Definition ramp_index (ts ts2 : date) : nat :=
  if date_eqb ts ts2 then 0%nat else 1%nat.

(** The first day the store holds, line 207. *)
Definition floor_date : date := mkdate 2007 1 1.


(** The row of the scenarios table that a scenario has, if any. *)
Definition scenario_row_of (conn : store) (scenario : Z) : option scenario_row :=
  find (fun r => sc_id r =? scenario) (scenarios conn).

(** The last-available date that the store holds: the date that the marker
    [last_date_0] reads as, 2007-01-01 without a marker, and none when the
    marker does not read as a date. *)
Definition marker_date (X : Externals) (conn : store) : option date :=
  match find (fun kv => fst kv =s? "last_date_0") (properties conn) with
  | None => Some (mkdate 2007 1 1)
  | Some kv => strptime_Ymd X (snd kv)
  end.

(** The region clause that [huc] stands for, lines 220-226. *)
Definition huc_clause_holds (huc : option string) (i : huc12_row) : bool :=
  match huc with
  | None => true
  | Some h =>
      if (String.length h =? 8)%nat then substring 0 8 (huc_12 i) =s? h
      else if (String.length h =? 12)%nat then huc_12 i =s? h
      else true
  end.

(** The full region set of a request: the regions of the geometry scenario
    that match the region text and, for each state flag set, the state. *)
Definition region_selected (geometry : option Z) (huc : option string)
  (e : environ) (i : huc12_row) : bool :=
  match geometry with
  | Some s => h_scenario i =? s
  | None => false
  end
  && huc_clause_holds huc i
  && implb (e_iowa e) (imatch (states i) "IA")
  && implb (e_mn e) (imatch (states i) "MN").

(** A run that ended in a NoData failure with no aggregate query issued. *)
Definition rejected_early {A : Type} (r : M A) : Prop :=
  (exists msg, fst r = Err (NoDataFound msg))
  /\ existsb is_aggregate (snd r) = false.

(** The value of a finished computation. *)
Definition value_of {A : Type} (m : M A) : option A :=
  match fst m with
  | Ok a => Some a
  | Err _ => None
  end.

(** ** A concrete instance, for running the model *)

Module Sample.

Fixpoint insert (x : Q) (l : list Q) : list Q :=
  match l with
  | [] => [x]
  | y :: t => if Qle_bool x y then x :: l else y :: insert x t
  end.

Definition sort (l : list Q) : list Q := fold_right insert [] l.

(** The 0.95 quantile by linear interpolation between order statistics. *)
Definition linear_percentile95 (xs : list (option Q)) : option Q :=
  let vals :=
    sort (flat_map (fun x => match x with Some q => [q] | None => [] end) xs) in
  match vals with
  | [] => None
  | v0 :: _ =>
      let pos := ((95 # 100) * inject_Z (Z.of_nat (List.length vals) - 1))%Q in
      let lo := Qfloor pos in
      let a := nth (Z.to_nat lo) vals v0 in
      let b := nth (Z.to_nat lo + 1) vals a in
      Some (a + (pos - inject_Z lo) * (b - a))%Q
  end.

(** Nine evenly spaced edges from [lo] whose last edge reaches [hi]. *)
Definition even_bins (lo hi : Q) : list Q :=
  let step := inject_Z (Qceiling ((hi - lo) / 8)) in
  map (fun k => (lo + inject_Z k * step)%Q) (range 0 9).

Definition digit_value (c : ascii) : option Z :=
  let n := nat_of_ascii c in
  if (48 <=? n)%nat && (n <=? 57)%nat then Some (Z.of_nat (n - 48)) else None.

Fixpoint number (cs : list ascii) (acc : Z) : option Z :=
  match cs with
  | [] => Some acc
  | c :: r =>
      match digit_value c with
      | Some k => number r (10 * acc + k)
      | None => None
      end
  end.

(** Reads the text [YYYY-MM-DD]. *)
Definition iso_date (s : string) : option date :=
  match list_ascii_of_string s with
  | [y1; y2; y3; y4; h1; m1; m2; h2; d1; d2] =>
      if Ascii.eqb h1 "-" && Ascii.eqb h2 "-" then
        match number [y1; y2; y3; y4] 0, number [m1; m2] 0, number [d1; d2] 0 with
        | Some y, Some m, Some d =>
            if valid_ymd y m d then Some (mkdate y m d) else None
        | _, _, _ => None
        end
      else None
  | _ => None
  end.

(** One decimal place, as [10.0] prints. *)
Definition one_decimal (q : Q) : string :=
  str_int (Qfloor q) ++ "." ++ str_int (Qfloor (q * 10) mod 10).

(** The nearest tenth, a tie going to the even digit, and the percent sign;
    [nan%] for no finite number. *)
Definition nearest_tenth (q : Q) : Z :=
  let t := (q * 10)%Q in
  let f := Qfloor t in
  let r := (t - inject_Z f)%Q in
  if Qle_bool r (1 # 2)
  then if Qeq_bool r (1 # 2) then (if Z.even f then f else f + 1) else f
  else f + 1.

Definition tenths_percent (p : option Q) : string :=
  match p with
  | Some q =>
      let n := nearest_tenth q in
      str_int (n / 10) ++ "." ++ str_int (n mod 10) ++ "%"
  | None => "nan%"
  end.

Definition externals : Externals := {|
  RAMPS_english :=
    [ [1 # 100; 1 # 10; 1 # 4; 1 # 2; 1; 2; 3; 5; 7; 10]%Q;
      [1 # 100; 1; 2; 3; 4; 5; 7; 10; 15; 20]%Q ];
  pretty_bins := even_bins;
  percentile95 := linear_percentile95;
  strptime_Ymd := iso_date;
  str_float := one_decimal;
  percent_1f := tenths_percent
|}.

Definition region (h st : string) (dt : Z) (slp : Q) : huc12_row := {|
  h_scenario := 0;
  huc_12 := h;
  states := st;
  simple_geom := "POLYGON " ++ h;
  dominant_tillage := Some dt;
  average_slope_ratio := Some slp
|}.

Definition row (h : string) (t : date) (loss precip : Q) : result_row := {|
  r_scenario := 0;
  r_huc_12 := h;
  valid := t;
  avg_loss := Some loss;
  qc_precip := Some precip;
  avg_delivery := Some (loss / 2)%Q;
  avg_runoff := None
|}.

Definition conn : store := {|
  scenarios :=
    [ {| sc_id := 0; sc_huc12_scenario := Some 0; sc_label := None |};
      {| sc_id := 36; sc_huc12_scenario := Some 0;
         sc_label := Some "no-till everywhere" |} ];
  properties := [("last_date_0", "2020-06-30")];
  huc12 :=
    [ region "070801050306" "IA" 2 (4 # 100);
      region "070801050307" "IA" 3 (6 # 100);
      region "070200010101" "MN,IA" 1 (2 # 100) ];
  results_by_huc12 :=
    [ row "070801050306" (mkdate 2020 6 1) (1 # 2) 12;
      row "070801050307" (mkdate 2020 6 1) (1 # 4) 10;
      row "070801050306" (mkdate 2020 6 2) 1 25;
      row "070801050306" (mkdate 2019 6 1) 2 30;
      row "070801050306" (mkdate 2019 9 1) 3 5 ];
  (* this database answers in the order of the table *)
  pg_rank := fun _ => 0
|}.

(** The same store after a day of heavy loss and with an unusual tillage
    code. *)
Definition heavy : store := {|
  scenarios := scenarios conn;
  properties := properties conn;
  huc12 := [ region "070801050306" "IA" 1000 (4 # 100) ];
  results_by_huc12 := [ row "070801050306" (mkdate 2020 6 1) 10 12 ];
  pg_rank := pg_rank conn
|}.

Definition request (v : string) (huc : option string) (y m d : Z)
  (y2 m2 d2 : option Z) : environ := {|
  e_dpi := 100;
  e_year := y; e_month := m; e_day := d;
  e_year2 := y2; e_month2 := m2; e_day2 := d2;
  e_scenario := 0;
  e_v := v;
  e_huc := huc;
  e_zoom := 10;
  e_overview := false;
  e_averaged := false;
  e_progressbar := false;
  e_cruse := false;
  e_iowa := false;
  e_mn := false
|}.

Definition with_flags (e : environ) (overview averaged progressbar cruse : bool)
  : environ := {|
  e_dpi := e_dpi e;
  e_year := e_year e; e_month := e_month e; e_day := e_day e;
  e_year2 := e_year2 e; e_month2 := e_month2 e; e_day2 := e_day2 e;
  e_scenario := e_scenario e;
  e_v := e_v e;
  e_huc := e_huc e;
  e_zoom := e_zoom e;
  e_overview := overview;
  e_averaged := averaged;
  e_progressbar := progressbar;
  e_cruse := cruse;
  e_iowa := e_iowa e;
  e_mn := e_mn e
|}.

(** The end-to-end request of the specification: one region, one day. *)
Definition june1 : environ :=
  request "avg_loss" (Some "070801050306") 2020 6 1 None None None.

(** A request for the whole domain, and one whose region is the text None. *)
Definition no_region : environ :=
  request "avg_loss" None 2020 6 1 None None None.
Definition region_None : environ :=
  request "avg_loss" (Some "None") 2020 6 1 None None None.

(** Two overview requests for one region and zoom; the second names a
    thirteenth month. *)
Definition overview_ok : environ :=
  with_flags (request "avg_loss" (Some "07080105") 2024 1 1 None None None)
             true false false false.
Definition overview_month13 : environ :=
  with_flags (request "avg_loss" (Some "07080105") 2024 13 1 None None None)
             true false false false.

(** The single-day map of the heavy store, for detachment and for the tillage
    code. *)
Definition heavy_loss_run : M map_image :=
  make_map externals heavy (Some "070801050306") (mkdate 2020 6 1)
           (mkdate 2020 6 1) 0 "avg_loss" june1.
Definition heavy_dt_run : M map_image :=
  make_map externals heavy (Some "070801050306") (mkdate 2020 6 1)
           (mkdate 2020 6 1) 0 "dt"
           (request "dt" (Some "070801050306") 2020 6 1 None None None).

(** The single-day map with the crude conversion asked for, without and with
    the progress bar. *)
Definition cruse_only : environ := with_flags june1 false false false true.
Definition cruse_and_bar : environ := with_flags june1 false false true true.

End Sample.

(** ** The overview map and the request handler of [mapper.py] *)

(** A row of the [huc12] table with the columns that the overview reads
    besides the ones of [huc12_row]. *)
Record named_region : Type := {
  nr_row : huc12_row;
  nr_name : string;
  nr_centroid_x : Q;
  nr_centroid_y : Q
}.

Inductive fill : Type := Red | Tan.

(** One polygon of the overview: its fill and, for the requested region, the
    place of the blank label. *)
Record overview_patch : Type := {
  op_geom : geom;
  op_fill : fill;
  op_label : option (Q * Q)
}.

Record overview_image : Type := {
  ov_title : string;
  ov_subtitle : string;
  ov_buffer : Q;
  ov_patches : list overview_patch;
  ov_counties : bool;
  ov_dpi : Z
}.

(** [_huc12 == huc], where [huc] may be [None]. *)
Definition is_huc (huc_12 : string) (huc : option string) : bool :=
  match huc with
  | Some h => huc_12 =s? h
  | None => false
  end.

(** The rows that the query of lines 77-92 returns. *)
Definition overview_rows (table : list named_region) (huc : option string)
  : list named_region :=
  let huclimiter :=
    match huc with
    | Some h => if (8 <=? String.length h)%nat then Some (substring 0 8 h)
                else None
    | None => None
    end in
  filter (fun r =>
            (h_scenario (nr_row r) =? 0)
            && match huclimiter with
               | Some huc8 => substring 0 8 (huc_12 (nr_row r)) =s? huc8
               | None => true
               end)
         table.

(** [make_overviewmap], lines 68-141, on [environ["huc"]] and
    [environ["zoom"]]. *)
Definition make_overviewmap (table : list named_region) (huc : option string)
  (zoom : Q) : M overview_image :=
  let df := overview_rows table huc in
  match df with
  | [] => raise (NoDataFound empty_message)
  | _ =>
      let buf := (zoom * 1000)%Q in
      let hucname :=
        match filter (fun r => is_huc (huc_12 (nr_row r)) huc) df with
        | [] => ""
        | r :: _ => nr_name r
        end in
      match huc with
      | None => raise TypeError
      | Some h =>
          let subtitle :=
            if (String.length h =? 12)%nat
            then "HUC12 highlighted in red, the HUC8 it resides in is in tan"
            else "The HUC8 is in tan" in
          ret {| ov_title := "DEP HUC " ++ str_opt huc ++ ":: " ++ hucname;
                 ov_subtitle := subtitle;
                 ov_buffer := buf;
                 ov_patches :=
                   map (fun r =>
                          let focal := is_huc (huc_12 (nr_row r)) huc in
                          {| op_geom := simple_geom (nr_row r);
                             op_fill := if focal then Red else Tan;
                             op_label :=
                               if focal
                               then Some (nr_centroid_x r, nr_centroid_y r)
                               else None |})
                       df;
                 ov_counties := true;
                 ov_dpi := 100 |}
      end
  end.

Inductive png : Type :=
| OverviewPng (o : overview_image)
| MapPng (m : map_image).

(** [application], lines 436-450; the query of the overview is not traced. *)
Definition application (X : Externals) (conn : store)
  (table : list named_region) (e : environ) : M png :=
  let scenario := e_scenario e in
  let v := e_v e in
  let huc := e_huc e in
  match get_ts_ts2 e with
  | Err x => raise x
  | Ok (ts, ts2) =>
      if e_overview e && match huc with Some _ => true | None => false end
      then o <- make_overviewmap table huc (e_zoom e) ;; ret (OverviewPng o)
      else m <- make_map X conn huc ts ts2 scenario v e ;; ret (MapPng m)
  end.

(** ** The cropping table of [huc12report.py] *)


(** [a / b] on numpy integers: a float, and no finite one over zero. *)
Definition np_div (a b : Z) : float :=
  if b =? 0 then None else Some (inject_Z a / inject_Z b)%Q.




(** [a / total * 100.0], lines 130 and 133.  The frame of an answer without
    rows has columns of objects and its sum is the Python int 0, so the
    division is one of Python ints and raises over zero; the counts of an
    answer with rows are numpy integers. *)
Definition percent (df : list (string * Z)) (a total : Z) : M float :=
  match df with
  | [] =>
      if total =? 0 then raise ZeroDivisionError
      else ret (Some (inject_Z a / inject_Z total * 100)%Q)
  | _ => ret (option_map (fun q => (q * 100)%Q) (np_div a total))
  end.









(** ** The slope plot of [huc12_slopes.py] *)

(** One segment of a slope file as [read_slp] returns it. *)
Record segment : Type := { seg_x : list Q; seg_y : list Q }.

(** Lines 17-23 for one file: the point to plot, or nothing for a slope
    steeper than 100 percent.  The arrays hold numpy floats, so a zero length
    divides to an infinity or to NaN and raises nothing; the percent of such
    a point is [None], no finite number. *)
Inductive slope : Type :=
| Plotted (percent : float) (length : Q)
| Skipped.

Definition slope_of (slp : list segment) : M slope :=
  s <- last_item slp ;;
  y <- last_item (seg_y s) ;;
  x <- last_item (seg_x s) ;;
  let length := x in
  if Qeq_bool x 0 then
    (* y / 0: minus infinity below zero, else plus infinity or NaN *)
    if negb (Qle_bool 0 y) then ret Skipped else ret (Plotted None length)
  else
    let bulk := (y / x)%Q in
    if negb (Qle_bool (-1) bulk) then ret Skipped
    else ret (Plotted (Some ((0 - bulk) * 100)%Q) length).

(** What [read_slp] makes of a file: its segments, or the exception that it
    raises. *)
Definition slp_file : Type := result (list segment).

(** Lines 16-24: the files are read and turned into points one by one. *)
Fixpoint slope_points (files : list slp_file) : M (list (float * Q)) :=
  match files with
  | [] => ret []
  | f :: rest =>
      slp <- match f with
             | Ok slp => ret slp
             | Err x => raise x
             end ;;
      p <- slope_of slp ;;
      res <- slope_points rest ;;
      match p with
      | Plotted pc len => ret ((pc, len) :: res)
      | Skipped => ret res
      end
  end.

(** Lines 15-28: [os.chdir] enters the directory of the region or raises, as
    [dir] tells; the points are handed to the joint plot, and [data[:, 1]]
    needs at least one. *)
Definition plot_data (dir : result (list slp_file)) : M (list (float * Q)) :=
  match dir with
  | Err x => raise x
  | Ok files =>
      res <- slope_points files ;;
      match res with
      | [] => raise IndexError
      | _ => ret res
      end
  end.

(** Lines 50 and 15: the request text cut to twelve characters, and the two
    directory names made of it. *)
Definition slope_dirs (huc12 : string) : string * string :=
  let huc12 := substring 0 12 huc12 in
  (substring 0 8 huc12, substring 8 (String.length huc12 - 8) huc12).

(** ** Notions for the further properties *)

(** The same map with another answer to whether counties and cities are
    drawn. *)
Definition with_counties (b : bool) (img : map_image) : map_image :=
  {| img_cmap := img_cmap img;
     img_title := img_title img;
     img_df := img_df img;
     img_bins := img_bins img;
     img_label := img_label img;
     img_counties := b;
     img_units := img_units img;
     img_progress := img_progress img;
     img_badge := img_badge img;
     img_dpi := img_dpi img |}.

(** The result of a computation changed by [f], its failures and its trace
    kept. *)
Definition map_M {A B : Type} (f : A -> B) (m : M A) : M B :=
  (match fst m with Ok a => Ok (f a) | Err x => Err x end, snd m).

Definition is_label_query (ev : event) : bool :=
  match ev with
  | SelectLabel _ => true
  | _ => false
  end.

(** More data to run the model on. *)
Module Cases.

Definition named (h name : string) : named_region := {|
  nr_row := Sample.region h "IA" 2 (4 # 100);
  nr_name := name;
  nr_centroid_x := (-93)%Q;
  nr_centroid_y := 42%Q
|}.

Definition table : list named_region :=
  [ named "070801050306" "Squaw Creek";
    named "070801050307" "Worrell Creek";
    named "070200010101" "Little Minnesota River" ].

(** An overview request that names no region. *)
Definition overview_no_huc (v : string) (y : Z) : environ :=
  Sample.with_flags (Sample.request v None y 6 1 None None None)
                    true false false false.


(** A directory of three slope files: a gentle one, a cliff, and one that
    climbs. *)
Definition slopes : result (list slp_file) :=
  Ok [ Ok [ {| seg_x := [0; 50]%Q; seg_y := [0; -2]%Q |};
            {| seg_x := [50; 100]%Q; seg_y := [-2; -5]%Q |} ];
       Ok [ {| seg_x := [0; 10]%Q; seg_y := [0; -20]%Q |} ];
       Ok [ {| seg_x := [0; 40]%Q; seg_y := [0; 4]%Q |} ] ].

(** A request for a scenario that has no row in the scenarios table. *)
Definition unknown_scenario : environ := {|
  e_dpi := 100;
  e_year := 2020; e_month := 7; e_day := 1;
  e_year2 := None; e_month2 := None; e_day2 := None;
  e_scenario := 99;
  e_v := "avg_loss";
  e_huc := None;
  e_zoom := 10;
  e_overview := false;
  e_averaged := false;
  e_progressbar := false;
  e_cruse := false;
  e_iowa := false;
  e_mn := false
|}.

(** The sample store in a database that answers in the order of the values,
    the smallest first. *)
Definition by_value : store := {|
  scenarios := scenarios Sample.conn;
  properties := properties Sample.conn;
  huc12 := huc12 Sample.conn;
  results_by_huc12 := results_by_huc12 Sample.conn;
  pg_rank := fun r => match df_data r with
                      | Some q => Qfloor (q * 1000)
                      | None => 0
                      end
|}.


End Cases.

(** * Properties *)

(** [lia] reads quotients and remainders by constants. *)
Ltac Zify.zify_post_hook ::= Z.div_mod_to_equations.

(** ** The effect monad *)

Lemma bind_ok_inv {A B : Type} (m : M A) (k : A -> M B) (b : B) (l : list event) :
  bind m k = (Ok b, l) ->
  exists a l1 l2, m = (Ok a, l1) /\ k a = (Ok b, l2) /\ l = (l1 ++ l2)%list.
Proof.
  destruct m as [[a | x] l1]; simpl; intros H; [ | discriminate ].
  destruct (k a) as [r l2] eqn:Hk; simpl in H.
  inversion H; subst. exists a, l1, l2. auto.
Qed.

Lemma bind_ok {A B : Type} (m : M A) (k : A -> M B) (a : A) (l : list event) :
  m = (Ok a, l) -> bind m k = (fst (k a), (l ++ snd (k a))%list).
Proof. intros ->. reflexivity. Qed.

Lemma bind_err {A B : Type} (m : M A) (k : A -> M B) (x : exn) (l : list event) :
  m = (Err x, l) -> bind m k = (Err x, l).
Proof. intros ->. reflexivity. Qed.

Lemma dict_get_ok {A : Type} (o : option A) (a : A) (l : list event) :
  dict_get o = (Ok a, l) -> o = Some a /\ l = [].
Proof. destruct o; simpl; intros H; inversion H; auto. Qed.

(** ** Dates *)

Lemma date_compare_eq (a b : date) : date_compare a b = Eq -> a = b.
Proof.
  destruct a as [y m d], b as [y' m' d']. unfold date_compare; simpl.
  destruct (y ?= y') eqn:Hy; try discriminate.
  destruct (m ?= m') eqn:Hm; try discriminate.
  intros Hd.
  apply Z.compare_eq in Hy, Hm, Hd. now subst.
Qed.

Lemma date_compare_refl (a : date) : date_compare a a = Eq.
Proof. unfold date_compare. now rewrite !Z.compare_refl. Qed.

Lemma date_eqb_eq (a b : date) : date_eqb a b = true <-> a = b.
Proof.
  unfold date_eqb. split.
  - destruct (date_compare a b) eqn:H; try discriminate.
    intros _. now apply date_compare_eq.
  - intros ->. now rewrite date_compare_refl.
Qed.

Lemma date_compare_antisym (a b : date) :
  date_compare b a = CompOpp (date_compare a b).
Proof.
  unfold date_compare.
  rewrite (Z.compare_antisym (year a) (year b)).
  rewrite (Z.compare_antisym (month a) (month b)).
  rewrite (Z.compare_antisym (day a) (day b)).
  destruct (year a ?= year b); simpl; auto.
  destruct (month a ?= month b); simpl; auto.
Qed.

Lemma date_gtb_leb (a b : date) : date_gtb a b = negb (date_leb a b).
Proof.
  unfold date_gtb, date_ltb, date_leb. rewrite (date_compare_antisym a b).
  now destruct (date_compare a b).
Qed.

Lemma date_ltb_leb (a b : date) : date_ltb a b = negb (date_leb b a).
Proof. apply (date_gtb_leb b a). Qed.

Lemma date_leb_refl (a : date) : date_leb a a = true.
Proof. unfold date_leb. now rewrite date_compare_refl. Qed.

Lemma days_in_month_pos (y m : Z) : 28 <= days_in_month y m <= 31.
Proof.
  unfold days_in_month.
  destruct (m =? 2); [ destruct (is_leap y); lia | ].
  destruct ((m =? 4) || (m =? 6) || (m =? 9) || (m =? 11)); lia.
Qed.

Lemma next_day_later (t : date) : date_gtb (next_day t) t = true.
Proof.
  unfold date_gtb, date_ltb, date_compare, next_day.
  destruct (day t <? days_in_month (year t) (month t)); simpl.
  - rewrite !Z.compare_refl.
    replace (day t ?= day t + 1) with Lt; auto.
    symmetry. apply Z.compare_lt_iff. lia.
  - destruct (month t <? 12) eqn:Hm; simpl.
    + rewrite Z.compare_refl.
      replace (month t ?= month t + 1) with Lt; auto.
      symmetry. apply Z.compare_lt_iff. lia.
    + replace (year t ?= year t + 1) with Lt; auto.
      symmetry. apply Z.compare_lt_iff. lia.
Qed.

Lemma new_date_ok (y m d : Z) (t : date) :
  new_date y m d = Ok t -> t = mkdate y m d /\ valid_date t = true.
Proof.
  unfold new_date.
  destruct (fits_c_int y && fits_c_int m && fits_c_int d); [ | discriminate ].
  destruct (valid_ymd y m d) eqn:H; intros E; inversion E.
  subst. split; auto.
Qed.



Lemma get_ts_ts2_ok (e : environ) (ts ts2 : date) :
  get_ts_ts2 e = Ok (ts, ts2) ->
  new_date (e_year e) (e_month e) (e_day e) = Ok ts /\
  new_date (default_to (e_year e) (e_year2 e))
           (default_to (e_month e) (e_month2 e))
           (default_to (e_day e) (e_day2 e)) = Ok ts2.
Proof.
  unfold get_ts_ts2.
  destruct (new_date (e_year e) (e_month e) (e_day e)) as [a | x];
    [ | discriminate ].
  destruct (new_date _ _ _) as [b | x]; [ | discriminate ].
  intros H. inversion H. now subst.
Qed.

Lemma get_ts_ts2_valid (e : environ) (ts ts2 : date) :
  get_ts_ts2 e = Ok (ts, ts2) -> valid_date ts = true /\ valid_date ts2 = true.
Proof.
  intros H. apply get_ts_ts2_ok in H. destruct H as [H1 H2].
  apply new_date_ok in H1, H2. tauto.
Qed.

(** ** Text *)

Lemma length_append (a b : string) :
  String.length (a ++ b) = (String.length a + String.length b)%nat.
Proof. induction a; simpl; auto. Qed.

Lemma append_assoc (a b c : string) : (a ++ b) ++ c = a ++ b ++ c.
Proof. induction a; simpl; congruence. Qed.

Lemma append_cancel_l (a x y : string) : a ++ x = a ++ y -> x = y.
Proof. induction a; simpl; intros H; auto. inversion H. auto. Qed.

Lemma append_cancel_r (b x y : string) : x ++ b = y ++ b -> x = y.
Proof.
  revert y. induction x as [ | c x IH]; intros [ | c' y] H; simpl in H; auto.
  - apply (f_equal String.length) in H. simpl in H.
    rewrite length_append in H. lia.
  - apply (f_equal String.length) in H. simpl in H.
    rewrite length_append in H. lia.
  - inversion H; subst. f_equal. auto.
Qed.

(** A change of the middle of a text shows in the text. *)
Lemma append_middle (a b x y : string) : a ++ x ++ b = a ++ y ++ b -> x = y.
Proof. intros H. apply append_cancel_l in H. now apply append_cancel_r in H. Qed.

Lemma digit_inj (n m : Z) :
  0 <= n < 10 -> 0 <= m < 10 -> digit n = digit m -> n = m.
Proof.
  unfold digit. intros Hn Hm H.
  rewrite !Z.mod_small in H by lia.
  apply (f_equal nat_of_ascii) in H.
  rewrite !nat_ascii_embedding in H by lia. lia.
Qed.

Lemma digit_mod (n : Z) : digit n = digit (n mod 10).
Proof. unfold digit. now rewrite Z.mod_mod by lia. Qed.

Lemma pad2_inj (n m : Z) :
  0 <= n < 100 -> 0 <= m < 100 -> pad2 n = pad2 m -> n = m.
Proof.
  unfold pad2. intros Hn Hm H. inversion H as [[H1 H2]].
  rewrite (digit_mod n), (digit_mod m) in H2.
  apply digit_inj in H1; [ | lia | lia ].
  apply digit_inj in H2; [ | lia .. ].
  lia.
Qed.

Lemma append_eq_length (x x' y y' : string) :
  String.length x = String.length x' -> x ++ y = x' ++ y' -> x = x' /\ y = y'.
Proof.
  revert x'. induction x as [ | c x IH]; intros [ | c' x'] L H;
    simpl in *; try discriminate; auto.
  inversion H; subst. destruct (IH x') as [-> ->]; auto.
Qed.

Lemma to_int_proper (n : Z) : Z.to_int n <> Decimal.Pos Decimal.Nil /\
                              Z.to_int n <> Decimal.Neg Decimal.Nil.
Proof.
  destruct n; simpl; split; try discriminate; intros H; inversion H as [E];
    now apply DecimalPos.Unsigned.to_uint_nonnil in E.
Qed.

Lemma str_int_inj (n m : Z) : str_int n = str_int m -> n = m.
Proof.
  unfold str_int. intros H.
  apply (f_equal NilZero.int_of_string) in H.
  destruct (to_int_proper n), (to_int_proper m).
  rewrite !NilZero.isi in H by assumption.
  inversion H as [E]. now apply DecimalZ.to_int_inj in E.
Qed.

Lemma strftime_Ymd_inj (a b : date) :
  valid_date a = true -> valid_date b = true ->
  strftime_Ymd a = strftime_Ymd b -> a = b.
Proof.
  destruct a as [y m d], b as [y' m' d'].
  unfold valid_date, valid_ymd, strftime_Ymd; cbn [year month day].
  intros Ha Hb H.
  pose proof (days_in_month_pos y m). pose proof (days_in_month_pos y' m').
  assert (L : String.length (str_int y) = String.length (str_int y')).
  { apply (f_equal String.length) in H. rewrite !length_append in H.
    unfold pad2 in H. cbn [String.length] in H. lia. }
  apply append_eq_length in H; [ | exact L ]. destruct H as [Hy H].
  apply append_eq_length in H; [ | reflexivity ]. destruct H as [Hm Hd].
  apply str_int_inj in Hy.
  apply pad2_inj in Hm; [ | lia .. ].
  apply pad2_inj in Hd; [ | lia .. ].
  now subst.
Qed.

(** Decides a goal about the order of dates from the order of their fields. *)
Ltac date_order :=
  unfold between_date, date_gtb, date_ltb, date_leb, date_eqb, date_compare in *;
  repeat match goal with
         | |- context [?a ?= ?b] => destruct (Z.compare_spec a b)
         | H : context [?a ?= ?b] |- _ => destruct (Z.compare_spec a b)
         end;
  simpl in *; try discriminate; try congruence; try lia.

Lemma date_leb_trans (a b c : date) :
  date_leb a b = true -> date_leb b c = true -> date_leb a c = true.
Proof. intros H1 H2. date_order. Qed.

Lemma date_ltb_leb_trans (a b c : date) :
  date_ltb a b = true -> date_leb b c = true -> date_ltb a c = true.
Proof. intros H1 H2. date_order. Qed.

Lemma date_leb_ltb_trans (a b c : date) :
  date_leb a b = true -> date_ltb b c = true -> date_ltb a c = true.
Proof. intros H1 H2. date_order. Qed.

Lemma date_ltb_weaken (a b : date) : date_ltb a b = true -> date_leb a b = true.
Proof. intros H. date_order. Qed.

(** ** The cache key *)

Lemma get_mckey_ok (X : Externals) (e : environ) (k : string) :
  get_mckey X e = Ok k ->
  exists ts ts2,
    get_ts_ts2 e = Ok (ts, ts2) /\
    k = if e_overview e
        then "/auto/map.py/" ++ str_opt (e_huc e) ++ "/" ++ str_float X (e_zoom e)
        else "/auto/map.py/" ++ str_opt (e_huc e) ++ "/" ++ strftime_Ymd ts
             ++ "/" ++ strftime_Ymd ts2 ++ "/" ++ str_int (e_scenario e)
             ++ "/" ++ e_v e.
Proof.
  unfold get_mckey. destruct (get_ts_ts2 e) as [[ts ts2] | x]; [ | discriminate ].
  intros H. inversion H. exists ts, ts2. split; auto.
Qed.

Lemma detail_key_region (h h' : string) ts ts2 s v :
  detail_key h ts ts2 s v = detail_key h' ts ts2 s v -> h = h'.
Proof. unfold detail_key. apply append_middle. Qed.

Lemma detail_key_ts h (ts ts' ts2 : date) s v :
  valid_date ts = true -> valid_date ts' = true ->
  detail_key h ts ts2 s v = detail_key h ts' ts2 s v -> ts = ts'.
Proof.
  unfold detail_key. intros V V' H.
  rewrite <- !(append_assoc "/auto/map.py/") in H.
  rewrite <- !(append_assoc ("/auto/map.py/" ++ h)) in H.
  apply append_middle in H. now apply strftime_Ymd_inj.
Qed.

Lemma detail_key_ts2 h (ts ts2 ts2' : date) s v :
  valid_date ts2 = true -> valid_date ts2' = true ->
  detail_key h ts ts2 s v = detail_key h ts ts2' s v -> ts2 = ts2'.
Proof.
  unfold detail_key. intros V V' H.
  do 5 apply append_cancel_l in H.
  apply (append_middle "") in H. now apply strftime_Ymd_inj.
Qed.

Lemma detail_key_scenario h ts ts2 (s s' : Z) v :
  detail_key h ts ts2 s v = detail_key h ts ts2 s' v -> s = s'.
Proof.
  unfold detail_key. intros H.
  do 7 apply append_cancel_l in H.
  apply (append_middle "") in H. now apply str_int_inj.
Qed.

Lemma detail_key_v h ts ts2 s (v v' : string) :
  detail_key h ts ts2 s v = detail_key h ts ts2 s v' -> v = v'.
Proof.
  unfold detail_key. intros H.
  now do 9 apply append_cancel_l in H.
Qed.

Lemma split_at_slash (a b r r' : string) :
  no_slash a = true -> no_slash b = true ->
  a ++ "/" ++ r = b ++ "/" ++ r' -> a = b /\ r = r'.
Proof.
  revert b. induction a as [ | c a IH]; intros [ | c' b] Ha Hb H; simpl in *.
  - inversion H. auto.
  - inversion H; subst. discriminate.
  - inversion H; subst. discriminate.
  - inversion H; subst.
    apply andb_true_iff in Ha, Hb.
    destruct (IH b) as [-> ->]; tauto.
Qed.

Lemma no_slash_uint (d : Decimal.uint) :
  no_slash (NilEmpty.string_of_uint d) = true.
Proof. induction d; simpl; auto. Qed.

Lemma no_slash_str_int (n : Z) : no_slash (str_int n) = true.
Proof.
  unfold str_int, NilZero.string_of_int, NilZero.string_of_uint.
  destruct (Z.to_int n) as [d | d]; destruct d; simpl; auto using no_slash_uint.
Qed.

Lemma no_slash_app (a b : string) :
  no_slash (a ++ b) = no_slash a && no_slash b.
Proof.
  induction a as [ | c a IH]; simpl; [ reflexivity | ].
  rewrite IH. now rewrite andb_assoc.
Qed.

Lemma digit_not_slash (n : Z) : Ascii.eqb (digit n) "/" = false.
Proof.
  unfold digit.
  assert (H : 0 <= n mod 10 < 10) by (apply Z.mod_pos_bound; lia).
  assert (E : n mod 10 = 0 \/ n mod 10 = 1 \/ n mod 10 = 2 \/ n mod 10 = 3
              \/ n mod 10 = 4 \/ n mod 10 = 5 \/ n mod 10 = 6
              \/ n mod 10 = 7 \/ n mod 10 = 8 \/ n mod 10 = 9) by lia.
  repeat (destruct E as [E | E]; [ rewrite E; reflexivity | ]).
  rewrite E. reflexivity.
Qed.

Lemma no_slash_pad2 (n : Z) : no_slash (pad2 n) = true.
Proof.
  unfold pad2. cbn [no_slash]. now rewrite !digit_not_slash.
Qed.

Lemma no_slash_strftime_Ymd (t : date) : no_slash (strftime_Ymd t) = true.
Proof.
  unfold strftime_Ymd.
  now rewrite !no_slash_app, no_slash_str_int, !no_slash_pad2.
Qed.

(** Outside overview mode the key determines the five fields, as long as the
    region text holds no [/]. *)
Lemma detail_key_inj (h h' : string) (ts ts' ts2 ts2' : date)
  (s s' : Z) (v v' : string) :
  no_slash h = true -> no_slash h' = true ->
  valid_date ts = true -> valid_date ts' = true ->
  valid_date ts2 = true -> valid_date ts2' = true ->
  detail_key h ts ts2 s v = detail_key h' ts' ts2' s' v' ->
  h = h' /\ ts = ts' /\ ts2 = ts2' /\ s = s' /\ v = v'.
Proof.
  unfold detail_key. intros Hh Hh' V1 V1' V2 V2' H.
  apply append_cancel_l in H.
  apply split_at_slash in H; auto. destruct H as [E1 H].
  apply split_at_slash in H; auto using no_slash_strftime_Ymd.
  destruct H as [E2 H].
  apply split_at_slash in H; auto using no_slash_strftime_Ymd.
  destruct H as [E3 H].
  apply split_at_slash in H; auto using no_slash_str_int. destruct H as [E4 E5].
  apply strftime_Ymd_inj in E2, E3; auto.
  apply str_int_inj in E4. auto.
Qed.

Lemma key_fields_ok (e : environ) (f : fields) :
  key_fields e = Ok f ->
  get_ts_ts2 e = Ok (f_start f, f_end f) /\
  f_region f = str_opt (e_huc e) /\ f_scenario f = e_scenario e /\
  f_variable f = e_v e.
Proof.
  unfold key_fields. destruct (get_ts_ts2 e) as [[ts ts2] | x]; [ | discriminate ].
  intros H. inversion H. simpl. auto.
Qed.

Lemma get_mckey_detail (X : Externals) (e : environ) (k : string) (f : fields) :
  e_overview e = false -> get_mckey X e = Ok k -> key_fields e = Ok f ->
  k = detail_key (f_region f) (f_start f) (f_end f) (f_scenario f) (f_variable f)
  /\ valid_date (f_start f) = true /\ valid_date (f_end f) = true.
Proof.
  intros Ho Hk Hf. apply key_fields_ok in Hf. destruct Hf as (Ht & Hr & Hs & Hv).
  apply get_mckey_ok in Hk. destruct Hk as (ts & ts2 & Ht' & ->).
  rewrite Ht in Ht'. inversion Ht'; subst ts ts2.
  rewrite Ho, Hr, Hs, Hv. split; [ reflexivity | ].
  now apply (get_ts_ts2_valid e).
Qed.

Lemma fields_eq (a b : fields) :
  f_region a = f_region b -> f_start a = f_start b -> f_end a = f_end b ->
  f_scenario a = f_scenario b -> f_variable a = f_variable b -> a = b.
Proof. destruct a, b; simpl; intros; subst; reflexivity. Qed.

(** C8 (as amended): [get_mckey] is a function of the request: equal requests
    have equal keys.  Outside overview mode, a change of exactly one of the
    region text (where a missing region prints as None), the resolved start
    date, the resolved end date, the scenario or the variable changes the key,
    and when the region texts hold no [/] any change of these fields changes
    the key.  In overview mode, two requests whose dates are valid and which
    agree on region and zoom have the same key. *)
Theorem get_mckey_dependence (X : Externals) (e1 e2 : environ) (k1 k2 : string) :
  get_mckey X e1 = Ok k1 -> get_mckey X e2 = Ok k2 ->
  (e1 = e2 -> k1 = k2)
  /\ (e_overview e1 = false -> e_overview e2 = false ->
      forall f1 f2, key_fields e1 = Ok f1 -> key_fields e2 = Ok f2 ->
        (differ_in_one f1 f2 -> k1 <> k2)
        /\ (no_slash (f_region f1) = true -> no_slash (f_region f2) = true ->
            f1 <> f2 -> k1 <> k2))
  /\ (e_overview e1 = true -> e_overview e2 = true ->
      e_huc e1 = e_huc e2 -> e_zoom e1 = e_zoom e2 -> k1 = k2).
Proof.
  intros H1 H2. split; [ | split ].
  - intros ->. congruence.
  - intros O1 O2 f1 f2 F1 F2.
    destruct (get_mckey_detail X e1 k1 f1 O1 H1 F1) as (-> & Va & Vb).
    destruct (get_mckey_detail X e2 k2 f2 O2 H2 F2) as (-> & Va' & Vb').
    split.
    + intros D K.
      destruct D as [D | [D | [D | [D | D]]]];
        destruct D as (D1 & D2 & D3 & D4 & D5);
        rewrite ?D1, ?D2, ?D3, ?D4, ?D5 in K.
      * apply D1. eapply detail_key_region; eauto.
      * apply D2. eapply detail_key_ts; eauto.
      * apply D3. eapply detail_key_ts2; eauto.
      * apply D4. eapply detail_key_scenario; eauto.
      * apply D5. eapply detail_key_v; eauto.
    + intros S1 S2 N K. apply N.
      apply detail_key_inj in K; auto.
      destruct K as (? & ? & ? & ? & ?). now apply fields_eq.
  - intros O1 O2 Hh Hz.
    apply get_mckey_ok in H1, H2.
    destruct H1 as (? & ? & _ & ->), H2 as (? & ? & _ & ->).
    now rewrite O1, O2, Hh, Hz.
Qed.

Lemma get_mckey_dependence_witness :
  "/auto/map.py/070801050306/20200601/20200601/0/avg_loss"
  <> "/auto/map.py/070801050306/20200601/20200601/0/qc_precip".
Proof.
  refine (proj1 (proj1 (proj2 (get_mckey_dependence Sample.externals
     Sample.june1
     (Sample.request "qc_precip" (Some "070801050306") 2020 6 1 None None None)
     _ _ eq_refl eq_refl)) eq_refl eq_refl _ _ eq_refl eq_refl) _).
  right; right; right; right. simpl. repeat split. discriminate.
Defined.

(** C8, against the wording of the specification: a request without a region and a request
    for the region named None share one key although their regions differ, and
    of two overview requests with one region and zoom, one has a key and the
    other raises on its dates. *)
Lemma get_mckey_collision :
  e_huc Sample.no_region <> e_huc Sample.region_None
  /\ e_overview Sample.no_region = false
  /\ e_overview Sample.region_None = false
  /\ get_mckey Sample.externals Sample.no_region
     = Ok "/auto/map.py/None/20200601/20200601/0/avg_loss"
  /\ get_mckey Sample.externals Sample.region_None
     = Ok "/auto/map.py/None/20200601/20200601/0/avg_loss"
  /\ e_huc Sample.overview_ok = e_huc Sample.overview_month13
  /\ e_zoom Sample.overview_ok = e_zoom Sample.overview_month13
  /\ get_mckey Sample.externals Sample.overview_ok
     = Ok "/auto/map.py/07080105/10.0"
  /\ get_mckey Sample.externals Sample.overview_month13 = Err ValueError.
Proof. repeat split; try reflexivity. discriminate. Qed.

(** C9: outside overview mode the key is a function of the region, the
    resolved dates, the scenario and the variable alone: requests that agree
    on these have the same key, whatever their averaged, iowa, mn, progressbar
    and cruse flags and their dpi. *)
Theorem get_mckey_ignores_flags (X : Externals) (e1 e2 : environ) :
  e_overview e1 = false -> e_overview e2 = false ->
  e_huc e1 = e_huc e2 -> get_ts_ts2 e1 = get_ts_ts2 e2 ->
  e_scenario e1 = e_scenario e2 -> e_v e1 = e_v e2 ->
  get_mckey X e1 = get_mckey X e2.
Proof.
  intros O1 O2 Hh Ht Hs Hv. unfold get_mckey.
  now rewrite O1, O2, Hh, Ht, Hs, Hv.
Qed.

Lemma get_mckey_ignores_flags_witness :
  get_mckey Sample.externals Sample.june1
  = get_mckey Sample.externals
      {| e_dpi := 300; e_year := 2020; e_month := 6; e_day := 1;
         e_year2 := Some 2020; e_month2 := None; e_day2 := Some 1;
         e_scenario := 0; e_v := "avg_loss"; e_huc := Some "070801050306";
         e_zoom := 4; e_overview := false; e_averaged := true;
         e_progressbar := true; e_cruse := true; e_iowa := true;
         e_mn := true |}.
Proof.
  apply (get_mckey_ignores_flags Sample.externals); reflexivity.
Defined.

(** ** The freshness gate *)

Section Gate.

Variable X : Externals.
Variables (conn : store) (huc : option string) (ts ts2 : date).
Variables (scenario : Z) (v : string) (e : environ).
Variables (huc12_scenario : option Z) (lastts : date).

Hypothesis scenario_known :
  select_huc12_scenario conn scenario
  = (Ok huc12_scenario, [SelectHuc12Scenario scenario]).
Hypothesis marker_read :
  select_last_date X conn = (Ok lastts, [SelectLastDate]).

Let run : M map_image := make_map X conn huc ts ts2 scenario v e.

Lemma make_map_gate_closed :
  date_gtb ts lastts || date_gtb ts2 lastts || date_ltb ts floor_date = true ->
  run = (Err (NoDataFound gate_message),
         [SelectHuc12Scenario scenario; SelectLastDate]).
Proof.
  intros C. unfold run, make_map. destruct (make_title ts ts2 e) as [t a].
  rewrite (bind_ok _ _ _ _ scenario_known). cbv beta.
  rewrite (bind_ok _ _ _ _ marker_read). cbv beta.
  unfold check_freshness. fold floor_date. rewrite C. reflexivity.
Qed.

Lemma make_map_gate_open :
  date_gtb ts lastts || date_gtb ts2 lastts || date_ltb ts floor_date = false ->
  run = (Err KeyError, [SelectHuc12Scenario scenario; SelectLastDate])
  \/ existsb is_aggregate (snd run) = true.
Proof.
  intros C. unfold run, make_map. destruct (make_title ts ts2 e) as [t a].
  rewrite (bind_ok _ _ _ _ scenario_known). cbv beta.
  rewrite (bind_ok _ _ _ _ marker_read). cbv beta.
  unfold check_freshness. fold floor_date. rewrite C.
  destruct (V2MULTI v) as [dbcol | ]; [ right | left; reflexivity ].
  unfold read_postgis.
  destruct (is_categorical v); [ reflexivity | ].
  destruct (e_averaged e); destruct (column v); reflexivity.
Qed.

End Gate.

Lemma find_filter {A : Type} (f : A -> bool) (l : list A) :
  find f l = match filter f l with
             | [] => None
             | a :: _ => Some a
             end.
Proof.
  induction l as [ | a l IH]; simpl; [ reflexivity | ].
  destruct (f a); [ reflexivity | exact IH ].
Qed.

Lemma select_huc12_scenario_row (conn : store) (scenario : Z) :
  select_huc12_scenario conn scenario
  = (match scenario_row_of conn scenario with
     | Some srow => Ok (sc_huc12_scenario srow)
     | None => Err TypeError
     end, [SelectHuc12Scenario scenario]).
Proof.
  unfold select_huc12_scenario, scenario_row_of. rewrite find_filter.
  destruct (filter _ (scenarios conn)); reflexivity.
Qed.

Lemma select_last_date_marker (X : Externals) (conn : store) :
  select_last_date X conn
  = (match marker_date X conn with
     | Some d => Ok d
     | None => Err ValueError
     end, [SelectLastDate]).
Proof.
  unfold select_last_date, marker_date. rewrite find_filter.
  destruct (filter _ (properties conn)) as [ | kv r]; [ reflexivity | ].
  destruct (strptime_Ymd X (snd kv)); reflexivity.
Qed.

(** C4 (as amended): a scenario without a row in the scenarios table ends
    [make_map] in a TypeError and a marker that does not read as a date in a
    ValueError, whatever the dates.  With the row and with the marker of the
    store, [make_map] ends in a NoData failure with no aggregate query issued
    exactly when the start or the end date is after the marker or the start
    date is before 2007-01-01; without a marker row the marker is 2007-01-01;
    a start date one day after the marker is rejected, and a start date equal
    to the marker passes when the end date is no later than the marker and
    the marker is not before the floor. *)
Theorem freshness_gate_exact (X : Externals) (conn : store)
  (huc : option string) (ts ts2 : date) (scenario : Z) (v : string)
  (e : environ) :
  (scenario_row_of conn scenario = None ->
   make_map X conn huc ts ts2 scenario v e
   = (Err TypeError, [SelectHuc12Scenario scenario]))
  /\ (forall srow,
        scenario_row_of conn scenario = Some srow ->
        marker_date X conn = None ->
        make_map X conn huc ts ts2 scenario v e
        = (Err ValueError, [SelectHuc12Scenario scenario; SelectLastDate]))
  /\ (forall srow lastts,
        scenario_row_of conn scenario = Some srow ->
        marker_date X conn = Some lastts ->
        (rejected_early (make_map X conn huc ts ts2 scenario v e)
         <-> (date_gtb ts lastts = true \/ date_gtb ts2 lastts = true
              \/ date_ltb ts floor_date = true))
        /\ ((forall kv, In kv (properties conn) -> fst kv <> "last_date_0") ->
            lastts = mkdate 2007 1 1)
        /\ (ts = next_day lastts ->
            rejected_early (make_map X conn huc ts ts2 scenario v e))
        /\ (ts = lastts -> date_leb ts2 lastts = true ->
            date_leb floor_date lastts = true ->
            ~ rejected_early (make_map X conn huc ts ts2 scenario v e))).
Proof.
  split; [ | split ].
  - intros Hn. unfold make_map. destruct (make_title ts ts2 e) as [t a].
    rewrite select_huc12_scenario_row, Hn. reflexivity.
  - intros srow Hs Hn. unfold make_map. destruct (make_title ts ts2 e) as [t a].
    rewrite select_huc12_scenario_row, Hs, select_last_date_marker, Hn.
    reflexivity.
  - intros srow lastts Hrow Hmark.
    assert (Hs : select_huc12_scenario conn scenario
                 = (Ok (sc_huc12_scenario srow),
                    [SelectHuc12Scenario scenario])).
    { now rewrite select_huc12_scenario_row, Hrow. }
    assert (Hm : select_last_date X conn = (Ok lastts, [SelectLastDate])).
    { now rewrite select_last_date_marker, Hmark. }
    assert (G : rejected_early (make_map X conn huc ts ts2 scenario v e)
                <-> (date_gtb ts lastts = true \/ date_gtb ts2 lastts = true
                     \/ date_ltb ts floor_date = true)).
    { split.
      - intros [[msg Hr] Hl].
        destruct (date_gtb ts lastts || date_gtb ts2 lastts
                  || date_ltb ts floor_date) eqn:C.
        + apply orb_true_iff in C. destruct C as [C | C]; auto.
          apply orb_true_iff in C. tauto.
        + destruct (make_map_gate_open X conn huc ts ts2 scenario v e
                      _ lastts Hs Hm C) as [K | K].
          * rewrite K in Hr. discriminate.
          * congruence.
      - intros C.
        assert (C' : date_gtb ts lastts || date_gtb ts2 lastts
                     || date_ltb ts floor_date = true).
        { destruct C as [-> | [-> | ->]]; rewrite ?orb_true_r; reflexivity. }
        unfold rejected_early.
        rewrite (make_map_gate_closed X conn huc ts ts2 scenario v e
                   _ lastts Hs Hm C').
        split; [ exists gate_message | ]; reflexivity. }
    split; [ exact G | split; [ | split ] ].
    + intros Hnone. unfold marker_date in Hmark.
      destruct (find _ (properties conn)) as [kv | ] eqn:F.
      * apply find_some in F. destruct F as [F1 F2].
        apply String.eqb_eq in F2. now apply Hnone in F1.
      * now inversion Hmark.
    + intros ->. apply G. left. apply next_day_later.
    + intros -> H2 Hf R. apply G in R.
      rewrite !date_gtb_leb, date_ltb_leb in R.
      rewrite date_leb_refl, H2, Hf in R. simpl in R.
      destruct R as [R | [R | R]]; discriminate.
Qed.

Lemma freshness_gate_exact_witness :
  rejected_early
    (make_map Sample.externals Sample.conn None (mkdate 2020 7 1)
       (mkdate 2020 7 1) 0 "avg_loss" Sample.no_region)
  /\ ~ rejected_early
       (make_map Sample.externals Sample.conn None (mkdate 2020 6 30)
          (mkdate 2020 6 30) 0 "avg_loss" Sample.no_region).
Proof.
  split.
  - apply (proj1 (proj2 (proj2
      (proj2 (proj2
         (freshness_gate_exact Sample.externals Sample.conn None
            (mkdate 2020 7 1) (mkdate 2020 7 1) 0 "avg_loss"
            Sample.no_region))
         _ (mkdate 2020 6 30) eq_refl eq_refl)))).
    reflexivity.
  - apply (proj2 (proj2 (proj2
      (proj2 (proj2
         (freshness_gate_exact Sample.externals Sample.conn None
            (mkdate 2020 6 30) (mkdate 2020 6 30) 0 "avg_loss"
            Sample.no_region))
         _ (mkdate 2020 6 30) eq_refl eq_refl)))); reflexivity.
Defined.

(** C4, against the wording of the specification: the start date is after the
    marker of the store, yet the request for a scenario without a row ends
    in a TypeError, not in a NoData failure, and so does the handler. *)
Lemma late_date_without_scenario_row :
  get_ts_ts2 Cases.unknown_scenario = Ok (mkdate 2020 7 1, mkdate 2020 7 1)
  /\ marker_date Sample.externals Sample.conn = Some (mkdate 2020 6 30)
  /\ date_gtb (mkdate 2020 7 1) (mkdate 2020 6 30) = true
  /\ scenario_row_of Sample.conn 99 = None
  /\ make_map Sample.externals Sample.conn None (mkdate 2020 7 1)
       (mkdate 2020 7 1) 99 "avg_loss" Cases.unknown_scenario
     = (Err TypeError, [SelectHuc12Scenario 99])
  /\ application Sample.externals Sample.conn Cases.table
       Cases.unknown_scenario
     = (Err TypeError, [SelectHuc12Scenario 99]).
Proof. repeat split; vm_compute; reflexivity. Qed.

(** C10: [get_ts_ts2] hands back the two dates as they were built, also when
    the end date is before the start date, and [make_map] lets such a window
    through the gate when both dates lie between the floor and the marker: it
    goes on to look up the variable and to issue its aggregate query. *)
Theorem reversed_window_passes (X : Externals) (conn : store)
  (huc : option string) (scenario : Z) (v : string) (e : environ)
  (huc12_scenario : option Z) (ts ts2 lastts : date) :
  new_date (e_year e) (e_month e) (e_day e) = Ok ts ->
  new_date (default_to (e_year e) (e_year2 e))
           (default_to (e_month e) (e_month2 e))
           (default_to (e_day e) (e_day2 e)) = Ok ts2 ->
  date_ltb ts2 ts = true ->
  get_ts_ts2 e = Ok (ts, ts2)
  /\ (select_huc12_scenario conn scenario
      = (Ok huc12_scenario, [SelectHuc12Scenario scenario]) ->
      select_last_date X conn = (Ok lastts, [SelectLastDate]) ->
      date_leb floor_date ts2 = true -> date_leb ts lastts = true ->
      check_freshness ts ts2 lastts = ret tt
      /\ ~ rejected_early (make_map X conn huc ts ts2 scenario v e)).
Proof.
  intros H1 H2 Hlt. split.
  - unfold get_ts_ts2. now rewrite H1, H2.
  - intros Hs Hm Hf Hl.
    assert (C : date_gtb ts lastts || date_gtb ts2 lastts
                || date_ltb ts floor_date = false).
    { rewrite !date_gtb_leb, date_ltb_leb, Hl.
      rewrite (date_leb_trans ts2 ts lastts (date_ltb_weaken _ _ Hlt) Hl).
      rewrite (date_leb_trans floor_date ts2 ts Hf (date_ltb_weaken _ _ Hlt)).
      reflexivity. }
    split.
    + unfold check_freshness. fold floor_date. now rewrite C.
    + intros [[msg Hr] Ha].
      destruct (make_map_gate_open X conn huc ts ts2 scenario v e
                  huc12_scenario lastts Hs Hm C) as [K | K].
      * rewrite K in Hr. discriminate.
      * congruence.
Qed.

Lemma reversed_window_passes_witness :
  get_ts_ts2 (Sample.request "avg_loss" None 2020 6 2
                (Some 2019) (Some 6) (Some 1))
  = Ok (mkdate 2020 6 2, mkdate 2019 6 1).
Proof.
  apply (reversed_window_passes Sample.externals Sample.conn None 0 "avg_loss"
           (Sample.request "avg_loss" None 2020 6 2 (Some 2019) (Some 6) (Some 1))
           (Some 0) (mkdate 2020 6 2) (mkdate 2019 6 1) (mkdate 2020 6 30));
    reflexivity.
Defined.

(** ** The stages of [make_map] *)

Lemma select_huc12_scenario_log (conn : store) (scenario : Z) :
  snd (select_huc12_scenario conn scenario) = [SelectHuc12Scenario scenario].
Proof.
  unfold select_huc12_scenario.
  destruct (filter _ (scenarios conn)); reflexivity.
Qed.

Lemma select_last_date_log (X : Externals) (conn : store) :
  snd (select_last_date X conn) = [SelectLastDate].
Proof.
  unfold select_last_date.
  destruct (filter _ (properties conn)) as [ | kv r]; [ reflexivity | ].
  destruct (strptime_Ymd X (snd kv)); reflexivity.
Qed.

Lemma check_freshness_log (ts ts2 lastts : date) :
  snd (check_freshness ts ts2 lastts) = [].
Proof. unfold check_freshness. destruct (_ || _); reflexivity. Qed.

Lemma read_postgis_log (conn : store) h12 lim ts ts2 scenario v dbcol e :
  filter is_rebinning
    (snd (read_postgis conn h12 lim ts ts2 scenario v dbcol e)) = [].
Proof.
  unfold read_postgis. destruct (is_categorical v); [ reflexivity | ].
  destruct (e_averaged e); destruct (column v); reflexivity.
Qed.

Lemma label_scenario_log (scenario : Z) (conn : store) :
  filter is_rebinning (snd (label_scenario scenario conn)) = [].
Proof.
  unfold label_scenario. destruct (scenario =? 0); [ reflexivity | ].
  destruct (filter _ (scenarios conn)); reflexivity.
Qed.

Lemma draw_cruse_ok (avgval : option float) (e : environ) (b : option float)
  (l : list event) :
  draw_cruse avgval e = (Ok b, l) ->
  l = [] /\
  (e_cruse e = false /\ b = None
   \/ exists a, e_cruse e = true /\ avgval = Some a
                /\ b = Some (option_map (fun q => (q / 5)%Q) a)).
Proof.
  unfold draw_cruse. destruct (e_cruse e).
  - destruct avgval as [a | ]; simpl; intros H; inversion H.
    split; auto. right. exists a. auto.
  - simpl. intros H; inversion H. auto.
Qed.

(** What a finished run of [make_map] went through. *)
Lemma make_map_ok_inv (X : Externals) (conn : store) (huc : option string)
  (ts ts2 : date) (scenario : Z) (v : string) (e : environ)
  (img : map_image) (l : list event) :
  make_map X conn huc ts ts2 scenario v e = (Ok img, l) ->
  exists h12 lastts dbcol df lq bins lb,
    fst (select_huc12_scenario conn scenario) = Ok h12
    /\ fst (select_last_date X conn) = Ok lastts
    /\ check_freshness ts ts2 lastts = ret tt
    /\ V2MULTI v = Some dbcol
    /\ read_postgis conn h12 (build_huclimiter huc e) ts ts2 scenario v dbcol e
       = (Ok df, lq)
    /\ df <> []
    /\ select_bins X ts ts2 v df = (Ok bins, lb)
    /\ img_df img = df
    /\ img_bins img = bins
    /\ filter is_rebinning l = filter is_rebinning lb
    /\ (exists b la, draw_cruse (fst (draw_progress ts ts2 df e)) e = (Ok b, la)
                     /\ img_badge img = b)
    /\ img_progress img = snd (draw_progress ts ts2 df e)
    /\ exists ll, l = (SelectHuc12Scenario scenario :: SelectLastDate
                       :: lq ++ lb ++ ll)%list.
Proof.
  unfold make_map. destruct (make_title ts ts2 e) as [t a]. intros H.
  apply bind_ok_inv in H. destruct H as (h12 & l1 & l1' & E1 & H & ->).
  apply bind_ok_inv in H. destruct H as (lastts & l2 & l2' & E2 & H & ->).
  apply bind_ok_inv in H. destruct H as ([] & l3 & l3' & E3 & H & ->).
  apply bind_ok_inv in H. destruct H as (dbcol & l4 & l4' & E4 & H & ->).
  apply bind_ok_inv in H. destruct H as (df & lq & l5' & E5 & H & ->).
  apply bind_ok_inv in H. destruct H as ([] & l6 & l6' & E6 & H & ->).
  apply bind_ok_inv in H. destruct H as (bins & lb & l7' & E7 & H & ->).
  apply bind_ok_inv in H. destruct H as (label & l8 & l8' & E8 & H & ->).
  apply bind_ok_inv in H. destruct H as (units & l9 & l9' & E9 & H & ->).
  destruct (draw_progress ts ts2 df e) as [avgval bar] eqn:Ep.
  apply bind_ok_inv in H. destruct H as (badge & la & l10' & E10 & H & ->).
  inversion H; subst img l10'; clear H.
  apply dict_get_ok in E4, E9. destruct E4 as [E4 ->], E9 as [E9 ->].
  pose proof (select_huc12_scenario_log conn scenario) as L1.
  pose proof (select_last_date_log X conn) as L2.
  pose proof (check_freshness_log ts ts2 lastts) as L3.
  pose proof (read_postgis_log conn h12 (build_huclimiter huc e) ts ts2
                scenario v dbcol e) as L5.
  pose proof (label_scenario_log scenario conn) as L8.
  rewrite E1 in L1. rewrite E2 in L2. rewrite E3 in L3. rewrite E5 in L5.
  rewrite E8 in L8. simpl in L1, L2, L3, L5, L8. subst l1 l2 l3.
  pose proof (draw_cruse_ok _ _ _ _ E10) as [-> _].
  assert (L6 : l6 = [] /\ df <> []).
  { destruct df; simpl in E6; inversion E6; split; auto; discriminate. }
  destruct L6 as [-> Hdf].
  exists h12, lastts, dbcol, df, lq, bins, lb.
  rewrite E1, E2. simpl.
  repeat split; auto.
  - rewrite !filter_app, L5, L8. simpl. now rewrite app_nil_r.
  - exists badge, []. rewrite Ep. auto.
  - now rewrite Ep.
  - exists l8. now rewrite !app_nil_r.
Qed.

Lemma last_item_ok {A : Type} (l : list A) (a : A) (lg : list event) :
  last_item l = (Ok a, lg) -> lg = [] /\ exists front, l = (front ++ [a])%list.
Proof.
  unfold last_item. destruct (rev l) as [ | b r] eqn:E; simpl; intros H;
    inversion H; subst. split; auto.
  exists (rev r). rewrite <- (rev_involutive l), E. reflexivity.
Qed.

Lemma Qgtb_true (p t : Q) : Qgtb p t = true <-> (t < p)%Q.
Proof.
  unfold Qgtb. rewrite negb_true_iff. split.
  - intros H. apply Qnot_le_lt. intros L. apply Qle_bool_iff in L. congruence.
  - intros H. destruct (Qle_bool p t) eqn:E; auto.
    apply Qle_bool_iff in E. exfalso. apply (Qlt_not_le _ _ H E).
Qed.

Lemma Qgtb_false (p t : Q) : Qgtb p t = false <-> (p <= t)%Q.
Proof.
  unfold Qgtb. rewrite negb_false_iff. apply Qle_bool_iff.
Qed.

Lemma list_get_ok {A : Type} (l : list A) (n : nat) (a : A) (lg : list event) :
  list_get l n = (Ok a, lg) -> nth_error l n = Some a /\ lg = [].
Proof.
  unfold list_get. destruct (nth_error l n); simpl; intros H; inversion H; auto.
Qed.

Lemma base_ramp_ok (X : Externals) (ts ts2 : date) (ramp : list Q)
  (lg : list event) :
  base_ramp X ts ts2 = (Ok ramp, lg) ->
  nth_error (RAMPS_english X) (ramp_index ts ts2) = Some ramp /\ lg = [].
Proof.
  unfold base_ramp, ramp_index. destruct (date_eqb ts ts2); apply list_get_ok.
Qed.

(** What [select_bins] returns, by the percentile of the data. *)
Lemma select_bins_ok (X : Externals) (ts ts2 : date) (v : string)
  (df : list df_row) (bins : list Q) (lb : list event) :
  select_bins X ts ts2 v df = (Ok bins, lb) ->
  exists ramp chosen,
    nth_error (RAMPS_english X) (ramp_index ts ts2) = Some ramp
    /\ bins = (if v =s? "slp" then slp_bins
               else if v =s? "dt" then dt_bins else chosen)
    /\ match percentile95 X (map df_data df) with
       | None => chosen = ramp /\ lb = []
       | Some p =>
           exists front top,
             ramp = (front ++ [top])%list
             /\ if Qgtb p top
                then exists b0 rest,
                    pretty_bins X 0 p = b0 :: rest
                    /\ chosen = ((1 # 100)%Q :: rest)
                    /\ lb = [CallPrettyBins 0 p]
                else chosen = ramp /\ lb = []
       end.
Proof.
  unfold select_bins. intros H.
  apply bind_ok_inv in H. destruct H as (ramp & l1 & l1' & E1 & H & ->).
  apply base_ramp_ok in E1. destruct E1 as [E1 ->].
  apply bind_ok_inv in H. destruct H as (chosen & l2 & l2' & E2 & H & ->).
  inversion H; subst bins l2'; clear H.
  exists ramp, chosen. split; [ exact E1 | ]. split.
  { destruct (v =s? "slp"); [ reflexivity | ].
    destruct (v =s? "dt"); reflexivity. }
  destruct (percentile95 X (map df_data df)) as [p | ].
  - apply bind_ok_inv in E2. destruct E2 as (top & l3 & l3' & E3 & E2 & ->).
    apply last_item_ok in E3. destruct E3 as [-> [front ->]].
    exists front, top. split; [ reflexivity | ].
    destruct (Qgtb p top).
    + destruct (pretty_bins X 0 p) as [ | b0 rest] eqn:Ep; simpl in E2;
        inversion E2; subst.
      exists b0, rest. auto.
    + inversion E2; subst. rewrite app_nil_r. auto.
  - inversion E2; subst. auto.
Qed.

Lemma is_categorical_false (v : string) :
  is_categorical v = false -> (v =s? "dt") = false /\ (v =s? "slp") = false.
Proof. unfold is_categorical. apply orb_false_iff. Qed.

Lemma in_some_bin_below (b0 x : Q) (rest : list Q) :
  (x < b0)%Q -> in_some_bin (b0 :: rest) x = false.
Proof.
  intros H. unfold in_some_bin.
  destruct (rev (b0 :: rest)); [ reflexivity | ].
  replace (Qle_bool b0 x) with false; [ reflexivity | ].
  symmetry. destruct (Qle_bool b0 x) eqn:E; auto.
  apply Qle_bool_iff in E. exfalso. apply (Qlt_not_le _ _ H E).
Qed.

Lemma in_lowest_bin_below (b0 x : Q) (rest : list Q) :
  (x < b0)%Q -> in_lowest_bin (b0 :: rest) x = false.
Proof.
  intros H. unfold in_lowest_bin. destruct rest; [ reflexivity | ].
  replace (Qle_bool b0 x) with false; [ reflexivity | ].
  symmetry. destruct (Qle_bool b0 x) eqn:E; auto.
  apply Qle_bool_iff in E. exfalso. apply (Qlt_not_le _ _ H E).
Qed.

(** ** Colour bins *)

Lemma ramp_index_cases (ts ts2 : date) :
  (ts = ts2 -> ramp_index ts ts2 = 0%nat)
  /\ (ts <> ts2 -> ramp_index ts ts2 = 1%nat).
Proof.
  unfold ramp_index. split; intros H.
  - apply date_eqb_eq in H. now rewrite H.
  - destruct (date_eqb ts ts2) eqn:E; auto.
    apply date_eqb_eq in E. contradiction.
Qed.

(** C6: for a continuous variable, when the 95th percentile of the data is
    NaN or at most the top edge of the base ramp, the bins of the finished map
    are the base ramp itself and no rebinning took place; the base ramp is
    entry 0 of the ramps (daily) when the two dates are equal and entry 1
    (period) otherwise. *)
Theorem base_ramp_unchanged (X : Externals) (conn : store)
  (huc : option string) (ts ts2 : date) (scenario : Z) (v : string)
  (e : environ) (img : map_image) (l : list event) :
  make_map X conn huc ts ts2 scenario v e = (Ok img, l) ->
  is_categorical v = false ->
  (percentile95 X (map df_data (img_df img)) = None
   \/ exists p front top,
       percentile95 X (map df_data (img_df img)) = Some p
       /\ nth_error (RAMPS_english X) (ramp_index ts ts2)
          = Some (front ++ [top])%list
       /\ (p <= top)%Q) ->
  nth_error (RAMPS_english X) (ramp_index ts ts2) = Some (img_bins img)
  /\ filter is_rebinning l = []
  /\ (ts = ts2 -> ramp_index ts ts2 = 0%nat)
  /\ (ts <> ts2 -> ramp_index ts ts2 = 1%nat).
Proof.
  intros H Hc Hp.
  destruct (make_map_ok_inv _ _ _ _ _ _ _ _ _ _ H)
    as (h12 & lastts & dbcol & df & lq & bins & lb & _ & _ & _ & _ & _ & _
        & Hb & Hdf & Hbins & Hl & _).
  rewrite Hdf in Hp. rewrite Hbins, Hl.
  apply select_bins_ok in Hb.
  destruct Hb as (ramp & chosen & Hr & -> & Hq).
  destruct (is_categorical_false v Hc) as [-> ->].
  assert (K : chosen = ramp /\ lb = []).
  { destruct Hp as [Hp | (p & front & top & Hp & Hr' & Hle)].
    - now rewrite Hp in Hq.
    - rewrite Hp in Hq. destruct Hq as (front' & top' & -> & Hq).
      rewrite Hr in Hr'. inversion Hr' as [E].
      apply app_inj_tail in E. destruct E as [_ <-].
      apply Qgtb_false in Hle. now rewrite Hle in Hq. }
  destruct K as [-> ->].
  split; [ exact Hr | ]. split; [ reflexivity | ]. apply ramp_index_cases.
Qed.

Lemma base_ramp_unchanged_witness :
  nth_error (RAMPS_english Sample.externals) 0
  = Some [1 # 100; 1 # 10; 1 # 4; 1 # 2; 1; 2; 3; 5; 7; 10]%Q.
Proof.
  refine (proj1 (base_ramp_unchanged Sample.externals Sample.conn
            (Some "070801050306") (mkdate 2020 6 1) (mkdate 2020 6 1) 0
            "avg_loss" Sample.june1 _ _ eq_refl eq_refl _)).
  right. eexists.
  exists [1 # 100; 1 # 10; 1 # 4; 1 # 2; 1; 2; 3; 5; 7]%Q, 10%Q.
  split; [ vm_compute; reflexivity | ]. split; [ reflexivity | ].
  apply Qle_bool_iff. reflexivity.
Defined.

(** C3 (as amended): for a continuous variable whose 95th percentile is above
    the top edge of the base ramp, the rebinning routine is called from 0 to
    that percentile, the bins of the finished map are its edges with the first
    one replaced by 0.01, which is above 0, and the value 0 lies below that
    bottom edge: it is in no bin, the lowest one included. *)
Theorem rebinned_bottom_edge (X : Externals) (conn : store)
  (huc : option string) (ts ts2 : date) (scenario : Z) (v : string)
  (e : environ) (img : map_image) (l : list event) (p top : Q)
  (front : list Q) :
  make_map X conn huc ts ts2 scenario v e = (Ok img, l) ->
  is_categorical v = false ->
  percentile95 X (map df_data (img_df img)) = Some p ->
  nth_error (RAMPS_english X) (ramp_index ts ts2) = Some (front ++ [top])%list ->
  (top < p)%Q ->
  exists b0 rest,
    pretty_bins X 0 p = b0 :: rest
    /\ img_bins img = (1 # 100)%Q :: rest
    /\ In (CallPrettyBins 0 p) l
    /\ (0 < 1 # 100)%Q
    /\ in_lowest_bin (img_bins img) 0 = false
    /\ in_some_bin (img_bins img) 0 = false.
Proof.
  intros H Hc Hp Hr Hlt.
  destruct (make_map_ok_inv _ _ _ _ _ _ _ _ _ _ H)
    as (h12 & lastts & dbcol & df & lq & bins & lb & _ & _ & _ & _ & _ & _
        & Hb & Hdf & Hbins & Hl & _).
  rewrite Hdf in Hp. rewrite Hbins.
  apply select_bins_ok in Hb.
  destruct Hb as (ramp & chosen & Hr' & -> & Hq).
  destruct (is_categorical_false v Hc) as [-> ->].
  rewrite Hp in Hq. destruct Hq as (front' & top' & -> & Hq).
  rewrite Hr in Hr'. inversion Hr' as [E].
  apply app_inj_tail in E. destruct E as [_ <-].
  apply Qgtb_true in Hlt. rewrite Hlt in Hq.
  destruct Hq as (b0 & rest & Hpb & -> & ->).
  exists b0, rest.
  assert (Z01 : (0 < 1 # 100)%Q) by reflexivity.
  repeat split; auto.
  - assert (I : In (CallPrettyBins 0 p) (filter is_rebinning l)).
    { rewrite Hl. simpl. auto. }
    apply filter_In in I. tauto.
  - now apply in_lowest_bin_below.
  - now apply in_some_bin_below.
Qed.

Lemma rebinned_bottom_edge_witness :
  exists p b0 rest,
    pretty_bins Sample.externals 0 p = b0 :: rest
    /\ In (CallPrettyBins 0 p) (snd Sample.heavy_loss_run)
    /\ option_map img_bins (value_of Sample.heavy_loss_run)
       = Some ((1 # 100)%Q :: rest).
Proof.
  pose proof (rebinned_bottom_edge Sample.externals Sample.heavy
                (Some "070801050306") (mkdate 2020 6 1) (mkdate 2020 6 1) 0
                "avg_loss" Sample.june1 _ _ _ 10%Q
                [1 # 100; 1 # 10; 1 # 4; 1 # 2; 1; 2; 3; 5; 7]%Q
                eq_refl eq_refl eq_refl eq_refl eq_refl) as W.
  destruct W as (b0 & rest & A & B & C & _).
  eexists. exists b0, rest.
  split; [ exact A | ]. split; [ exact C | ].
  simpl in B. unfold value_of, Sample.heavy_loss_run. simpl. now rewrite B.
Defined.

(** C3, against the wording of the specification: on the heavy store the percentile is above
    the top edge 10 of the daily ramp, the finished map has the bottom edge
    0.01, and the value 0 is not in the lowest bin, nor in any. *)
Lemma zero_below_rebinned_bins :
  option_map
    (fun img =>
       match percentile95 Sample.externals (map df_data (img_df img)) with
       | Some p => Qgtb p 10
       | None => false
       end) (value_of Sample.heavy_loss_run) = Some true
  /\ option_map (fun img => hd 0%Q (img_bins img))
       (value_of Sample.heavy_loss_run) = Some (1 # 100)%Q
  /\ option_map (fun img => in_lowest_bin (img_bins img) 0)
       (value_of Sample.heavy_loss_run) = Some false
  /\ option_map (fun img => in_some_bin (img_bins img) 0)
       (value_of Sample.heavy_loss_run) = Some false.
Proof. repeat split; vm_compute; reflexivity. Qed.


(** C5 (as amended): for a categorical variable the bins of the finished map
    are 1..7 for dt and [0, 0.01, 0.03, 0.05, 0.07, 0.1, 0.5] for slp, whatever
    the data; the percentile test runs all the same, and when the percentile
    is above the top edge of the base ramp the rebinning routine is called and
    its edges are dropped. *)
Theorem categorical_bins_fixed (X : Externals) (conn : store)
  (huc : option string) (ts ts2 : date) (scenario : Z) (v : string)
  (e : environ) (img : map_image) (l : list event) :
  make_map X conn huc ts ts2 scenario v e = (Ok img, l) ->
  is_categorical v = true ->
  (v = "dt" -> img_bins img = dt_bins)
  /\ (v = "slp" -> img_bins img = slp_bins)
  /\ (forall p front top,
        percentile95 X (map df_data (img_df img)) = Some p ->
        nth_error (RAMPS_english X) (ramp_index ts ts2)
        = Some (front ++ [top])%list ->
        (top < p)%Q -> In (CallPrettyBins 0 p) l).
Proof.
  intros H Hc.
  destruct (make_map_ok_inv _ _ _ _ _ _ _ _ _ _ H)
    as (h12 & lastts & dbcol & df & lq & bins & lb & _ & _ & _ & _ & _ & _
        & Hb & Hdf & Hbins & Hl & _).
  rewrite Hbins, Hdf.
  apply select_bins_ok in Hb.
  destruct Hb as (ramp & chosen & Hr & -> & Hq).
  split; [ | split ].
  - intros ->. reflexivity.
  - intros ->. reflexivity.
  - intros p front top Hp Hr' Hlt.
    rewrite Hp in Hq. destruct Hq as (front' & top' & -> & Hq).
    rewrite Hr in Hr'. inversion Hr' as [E].
    apply app_inj_tail in E. destruct E as [_ <-].
    apply Qgtb_true in Hlt. rewrite Hlt in Hq.
    destruct Hq as (b0 & rest & _ & _ & ->).
    assert (I : In (CallPrettyBins 0 p) (filter is_rebinning l)).
    { rewrite Hl. simpl. auto. }
    apply filter_In in I. tauto.
Qed.

Lemma categorical_bins_fixed_witness :
  option_map img_bins (value_of Sample.heavy_dt_run) = Some dt_bins.
Proof.
  pose proof (categorical_bins_fixed Sample.externals Sample.heavy
                (Some "070801050306") (mkdate 2020 6 1) (mkdate 2020 6 1) 0
                "dt"
                (Sample.request "dt" (Some "070801050306") 2020 6 1
                   None None None)
                _ _ eq_refl eq_refl) as W.
  destruct W as (A & _). specialize (A eq_refl).
  simpl in A. unfold value_of, Sample.heavy_dt_run. simpl. now rewrite A.
Defined.

(** C5, against the wording of the specification: the map of the tillage code over the heavy
    store finishes with the bins 1..7, and the rebinning routine was called on
    the way. *)
Lemma rebinning_called_for_categorical :
  is_categorical "dt" = true
  /\ option_map img_bins (value_of Sample.heavy_dt_run) = Some dt_bins
  /\ existsb is_rebinning (snd Sample.heavy_dt_run) = true
  /\ filter is_rebinning (snd Sample.heavy_dt_run) = [CallPrettyBins 0 (100000 # 100)].
Proof. repeat split; vm_compute; reflexivity. Qed.

(** ** The crude conversion *)

(** With [cruse] set and [progressbar] clear no run of [make_map] finishes. *)
Lemma cruse_needs_progressbar (X : Externals) (conn : store)
  (huc : option string) (ts ts2 : date) (scenario : Z) (v : string)
  (e : environ) (img : map_image) (l : list event) :
  e_cruse e = true -> e_progressbar e = false ->
  make_map X conn huc ts ts2 scenario v e <> (Ok img, l).
Proof.
  intros Hc Hp H.
  destruct (make_map_ok_inv _ _ _ _ _ _ _ _ _ _ H)
    as (h12 & lastts & dbcol & df & lq & bins & lb & _ & _ & _ & _ & _ & _
        & _ & _ & _ & _ & (b & la & Hd & _) & _).
  unfold draw_progress, draw_cruse in Hd. rewrite Hp, Hc in Hd.
  simpl in Hd. discriminate.
Qed.

(** With both flags set the badge of a finished map is the mean over 5. *)
Lemma cruse_badge (X : Externals) (conn : store)
  (huc : option string) (ts ts2 : date) (scenario : Z) (v : string)
  (e : environ) (img : map_image) (l : list event) :
  e_cruse e = true -> e_progressbar e = true ->
  make_map X conn huc ts ts2 scenario v e = (Ok img, l) ->
  img_badge img
  = Some (option_map (fun q => (q / 5)%Q) (mean (map df_data (img_df img)))).
Proof.
  intros Hc Hp H.
  destruct (make_map_ok_inv _ _ _ _ _ _ _ _ _ _ H)
    as (h12 & lastts & dbcol & df & lq & bins & lb & _ & _ & _ & _ & _ & _
        & _ & Hdf & _ & _ & (b & la & Hd & Hb) & _).
  unfold draw_progress, draw_cruse in Hd. rewrite Hp, Hc in Hd.
  simpl in Hd. inversion Hd as [[Hv Hl]]. subst b df. now rewrite <- Hv.
Qed.

(** C7, the failing run: with [cruse] set and no progress bar the
    request for one region on one day ends in a TypeError after its aggregate
    query, where the same request without [cruse] finishes without a badge and
    with the progress bar finishes with the mean over 5 as its badge. *)
Theorem cruse_without_progressbar_raises :
  make_map Sample.externals Sample.conn (Some "070801050306")
    (mkdate 2020 6 1) (mkdate 2020 6 1) 0 "avg_loss" Sample.cruse_only
  = (Err TypeError,
     [SelectHuc12Scenario 0; SelectLastDate; ReadPeriodSum "avg_loss"])
  /\ option_map img_badge
       (value_of (make_map Sample.externals Sample.conn (Some "070801050306")
                    (mkdate 2020 6 1) (mkdate 2020 6 1) 0 "avg_loss"
                    Sample.june1)) = Some None
  /\ option_map img_badge
       (value_of (make_map Sample.externals Sample.conn (Some "070801050306")
                    (mkdate 2020 6 1) (mkdate 2020 6 1) 0 "avg_loss"
                    Sample.cruse_and_bar))
     = Some (Some (Some (4463 # 10000)%Q)).
Proof. repeat split; vm_compute; reflexivity. Qed.

(** ** The aggregate queries *)





Lemma filter_none {A : Type} (f : A -> bool) (l : list A) :
  (forall x, In x l -> f x = false) -> filter f l = [].
Proof.
  induction l as [ | a l IH]; simpl; intros H; auto.
  rewrite (H a) by auto. auto.
Qed.

(** Among pairs built on distinct keys, at most one has a given key. *)
Lemma filter_key_nodup {B : Type} (G : string -> B) (ks : list string)
  (h : string) :
  NoDup ks ->
  filter (fun d => h =s? fst d) (map (fun k => (k, G k)) ks)
  = if in_dec string_dec h ks then [(h, G h)] else [].
Proof.
  induction 1 as [ | k r Hk Hnd IH]; simpl; [ reflexivity | ].
  destruct (String.eqb_spec h k) as [E | Hne].
  - subst k. rewrite IH. destruct (string_dec h h) as [E | N]; [ | contradiction ].
    destruct (in_dec string_dec h r); [ contradiction | reflexivity ].
  - rewrite IH. destruct (string_dec k h) as [E | N]; [ congruence | ].
    destruct (in_dec string_dec h r); reflexivity.
Qed.

Lemma join_one_region (G : option Q -> option Q)
  (col : result_row -> option Q) (rows : list result_row) (i : huc12_row) :
  match
    filter (fun d => huc_12 i =s? fst d)
      (map (fun g => (fst g, G (sql_sum (map col (snd g)))))
           (group_by_huc_12 rows))
  with
  | [] => [(i, None)]
  | ms => map (fun d => (i, snd d)) ms
  end = [(i, joined G col rows (huc_12 i))].
Proof.
  unfold group_by_huc_12. rewrite map_map. cbn [fst snd].
  rewrite (filter_key_nodup
             (fun k => G (sql_sum (map col
                                     (filter (fun r => r_huc_12 r =s? k) rows))))
             _ (huc_12 i) (NoDup_nodup string_dec (map r_huc_12 rows))).
  unfold joined.
  destruct (in_dec string_dec (huc_12 i) (nodup string_dec (map r_huc_12 rows)))
    as [I | N];
    destruct (in_dec string_dec (huc_12 i) (map r_huc_12 rows)) as [I' | N'];
    try reflexivity.
  - apply nodup_In in I. contradiction.
  - exfalso. apply N. now apply nodup_In.
Qed.

Lemma left_join_grouped (G : option Q -> option Q)
  (col : result_row -> option Q) (rows : list result_row)
  (regions : list huc12_row) :
  left_join regions
    (map (fun g => (fst g, G (sql_sum (map col (snd g)))))
         (group_by_huc_12 rows))
  = map (fun i => (i, joined G col rows (huc_12 i))) regions.
Proof.
  unfold left_join.
  rewrite (flat_map_ext _ _ (join_one_region G col rows)).
  induction regions as [ | i regions IH]; simpl; congruence.
Qed.

Lemma select_joined_grouped (conn : store) (G : option Q -> option Q)
  (col : result_row -> option Q) (rows : list result_row)
  (h12 : option Z) (lim : list clause) (dbcol : Q) :
  select_joined conn
    (map (fun g => (fst g, G (sql_sum (map col (snd g)))))
         (group_by_huc_12 rows)) h12 lim dbcol
  = map (fun i =>
           {| df_geom := simple_geom i;
              df_data :=
                Some (coalesce (joined G col rows (huc_12 i)) 0 * dbcol)%Q |})
        (filter (in_scope h12 lim) (huc12 conn)).
Proof.
  unfold select_joined. rewrite left_join_grouped.
  induction (huc12 conn) as [ | i regions IH]; simpl; [ reflexivity | ].
  destruct (in_scope h12 lim i); simpl; congruence.
Qed.



Lemma digit_compare (a b : Z) :
  0 <= a < 10 -> 0 <= b < 10 -> Ascii.compare (digit a) (digit b) = (a ?= b).
Proof.
  intros Ha Hb.
  assert (Ea : a = 0 \/ a = 1 \/ a = 2 \/ a = 3 \/ a = 4 \/ a = 5 \/ a = 6
               \/ a = 7 \/ a = 8 \/ a = 9) by lia.
  assert (Eb : b = 0 \/ b = 1 \/ b = 2 \/ b = 3 \/ b = 4 \/ b = 5 \/ b = 6
               \/ b = 7 \/ b = 8 \/ b = 9) by lia.
  repeat (destruct Ea as [-> | Ea]); try subst a;
    repeat (destruct Eb as [-> | Eb]); try subst b; reflexivity.
Qed.

Lemma pad2_compare (a b : Z) (s t : string) :
  0 <= a < 100 -> 0 <= b < 100 ->
  String.compare (pad2 a ++ s) (pad2 b ++ t)
  = match a ?= b with
    | Eq => String.compare s t
    | c => c
    end.
Proof.
  intros Ha Hb. unfold pad2. cbn [append String.compare].
  rewrite (digit_mod a), (digit_mod b).
  rewrite !digit_compare by lia.
  destruct (Z.compare_spec (a / 10) (b / 10));
    destruct (Z.compare_spec (a mod 10) (b mod 10));
    destruct (Z.compare_spec a b); try reflexivity; lia.
Qed.

(** On month-day texts the order of text is the order of the calendar. *)
Lemma strftime_md_leb (a b : date) :
  0 <= month a < 100 -> 0 <= day a < 100 ->
  0 <= month b < 100 -> 0 <= day b < 100 ->
  String.leb (strftime_md a) (strftime_md b) = md_leb a b.
Proof.
  intros Hma Hda Hmb Hdb. unfold String.leb, strftime_md, md_leb.
  rewrite pad2_compare by assumption.
  replace (pad2 (day a)) with (pad2 (day a) ++ "") by reflexivity.
  replace (pad2 (day b)) with (pad2 (day b) ++ "") by reflexivity.
  rewrite pad2_compare by assumption. cbn [String.compare].
  destruct (Z.compare_spec (month a) (month b));
    destruct (Z.compare_spec (day a) (day b));
    destruct (Z.ltb_spec (month a) (month b));
    destruct (Z.eqb_spec (month a) (month b));
    destruct (Z.leb_spec (day a) (day b)); try reflexivity; lia.
Qed.

Lemma valid_date_range (t : date) :
  valid_date t = true -> 0 <= month t < 100 /\ 0 <= day t < 100.
Proof.
  unfold valid_date, valid_ymd. intros H.
  pose proof (days_in_month_pos (year t) (month t)). lia.
Qed.

Lemma Forall2_map_left {A B : Type} (R : B -> A -> Prop) (g : A -> B)
  (l : list A) :
  (forall x, In x l -> R (g x) x) -> Forall2 R (map g l) l.
Proof.
  induction l as [ | a l IH]; simpl; intros H; constructor; auto.
Qed.



(** *** The order of the rows *)

Lemma pg_insert_perm (rank : df_row -> Z) (r : df_row) (l : list df_row) :
  Permutation (pg_insert rank r l) (r :: l).
Proof.
  induction l as [ | x t IH]; cbn [pg_insert]; [ reflexivity | ].
  destruct (rank r <=? rank x); [ reflexivity | ].
  rewrite IH. apply perm_swap.
Qed.

(** Whatever the places, the rows of the answer are the rows of the query. *)
Lemma pg_order_perm (rank : df_row -> Z) (l : list df_row) :
  Permutation (pg_order rank l) l.
Proof.
  induction l as [ | r l IH]; cbn [pg_order fold_right]; [ reflexivity | ].
  rewrite pg_insert_perm. now constructor.
Qed.

Lemma pg_order_nil (rank : df_row -> Z) (l : list df_row) :
  pg_order rank l = [] <-> l = [].
Proof.
  split; [ | intros ->; reflexivity ].
  intros H. apply Permutation_nil. rewrite <- H. apply pg_order_perm.
Qed.

Lemma pg_order_Forall (P : df_row -> Prop) (rank : df_row -> Z)
  (l : list df_row) :
  Forall P l -> Forall P (pg_order rank l).
Proof.
  intros H. eapply Permutation_Forall; [ | exact H ].
  symmetry. apply pg_order_perm.
Qed.

(** *** The region set and the variables *)

Lemma in_scope_flags (h12s : option Z) (huc : option string) (e : environ)
  (i : huc12_row) :
  in_scope h12s (build_huclimiter huc e) i = region_selected h12s huc e i.
Proof.
  unfold region_selected, in_scope, build_huclimiter, huc_clause_holds.
  destruct h12s as [s | ]; [ | reflexivity ].
  assert (K : forall base,
             forallb (clause_holds i)
               (if e_mn e
                then ((if e_iowa e then (base ++ [StatesMatch "IA"])%list
                       else base) ++ [StatesMatch "MN"])%list
                else if e_iowa e then (base ++ [StatesMatch "IA"])%list
                     else base)
             = forallb (clause_holds i) base
               && implb (e_iowa e) (imatch (states i) "IA")
               && implb (e_mn e) (imatch (states i) "MN")).
  { intros base. destruct (e_mn e), (e_iowa e);
      rewrite ?forallb_app; cbn [forallb clause_holds implb];
      rewrite ?andb_true_r; reflexivity. }
  rewrite K. rewrite !andb_assoc. f_equal. f_equal. f_equal.
  destruct huc as [h | ]; [ | reflexivity ].
  destruct (String.length h =? 8)%nat;
    [ cbn [forallb clause_holds]; now rewrite andb_true_r | ].
  destruct (String.length h =? 12)%nat;
    [ cbn [forallb clause_holds]; now rewrite andb_true_r | reflexivity ].
Qed.

Lemma filter_in_scope (h12s : option Z) (huc : option string) (e : environ)
  (l : list huc12_row) :
  filter (in_scope h12s (build_huclimiter huc e)) l
  = filter (region_selected h12s huc e) l.
Proof. apply filter_ext. intros i. apply in_scope_flags. Qed.

(** The geometry scenario that a run works with is the one in the row of the
    scenario. *)
Lemma select_huc12_scenario_ok (conn : store) (scenario : Z) (h12 : option Z) :
  fst (select_huc12_scenario conn scenario) = Ok h12 ->
  exists srow, scenario_row_of conn scenario = Some srow
               /\ h12 = sc_huc12_scenario srow.
Proof.
  rewrite select_huc12_scenario_row.
  destruct (scenario_row_of conn scenario) as [srow | ]; cbn [fst];
    intros H; inversion H. eauto.
Qed.



Lemma read_postgis_continuous (conn : store) (h12 : option Z)
  (lim : list clause) (ts ts2 : date) (scenario : Z) (v : string) (dbcol : Q)
  (e : environ) (df : list df_row) (lq : list event) :
  is_categorical v = false ->
  read_postgis conn h12 lim ts ts2 scenario v dbcol e = (Ok df, lq) ->
  exists col,
    column v = Some col
    /\ if e_averaged e
       then df = pg_order (pg_rank conn)
                   (read_averaged conn scenario h12 lim col ts ts2 dbcol)
            /\ lq = [ReadAveraged v]
       else df = pg_order (pg_rank conn)
                   (read_period conn scenario h12 lim col ts ts2 dbcol)
            /\ lq = [ReadPeriodSum v].
Proof.
  intros Hc. unfold read_postgis. rewrite Hc.
  destruct (e_averaged e); destruct (column v) as [col | ]; simpl;
    intros H; inversion H; subst; exists col; auto.
Qed.




(** * Further properties of the code *)

(** ** The time window *)

Lemma get_ts_ts2_err (e : environ) (x : exn) :
  get_ts_ts2 e = Err x ->
  (x = ValueError \/ x = OverflowError)
  /\ (fits_c_int (e_year e) && fits_c_int (e_month e) && fits_c_int (e_day e)
      = true ->
      fits_c_int (default_to (e_year e) (e_year2 e))
      && fits_c_int (default_to (e_month e) (e_month2 e))
      && fits_c_int (default_to (e_day e) (e_day2 e)) = true ->
      x = ValueError).
Proof.
  unfold get_ts_ts2, new_date.
  destruct (fits_c_int (e_year e) && fits_c_int (e_month e)
            && fits_c_int (e_day e));
    [ | intros H; inversion H; split; [ auto | discriminate ] ].
  destruct (valid_ymd (e_year e) (e_month e) (e_day e));
    [ | intros H; inversion H; auto ].
  destruct (fits_c_int _ && fits_c_int _ && fits_c_int _);
    [ | intros H; inversion H; split; [ auto | discriminate ] ].
  destruct (valid_ymd _ _ _); intros H; inversion H; auto.
Qed.


(** ** The cache key *)

Lemma no_slash_slash (r : string) : no_slash ("/" ++ r) = false.
Proof. reflexivity. Qed.

(** X2: when the region texts and the printed zoom hold no [/], the key of an
    overview request is never the key of a request outside overview mode. *)
Theorem overview_key_apart (X : Externals) (e1 e2 : environ) (k1 k2 : string) :
  get_mckey X e1 = Ok k1 -> get_mckey X e2 = Ok k2 ->
  e_overview e1 = true -> e_overview e2 = false ->
  no_slash (str_opt (e_huc e1)) = true ->
  no_slash (str_opt (e_huc e2)) = true ->
  no_slash (str_float X (e_zoom e1)) = true ->
  k1 <> k2.
Proof.
  intros H1 H2 O1 O2 S1 S2 Sz K.
  apply get_mckey_ok in H1, H2.
  destruct H1 as (a & b & _ & ->), H2 as (ts & ts2 & _ & ->).
  rewrite O1, O2 in K.
  apply append_cancel_l in K.
  apply split_at_slash in K; auto. destruct K as [_ K].
  rewrite K in Sz. rewrite no_slash_app, no_slash_slash in Sz.
  rewrite andb_false_r in Sz. discriminate.
Qed.

Lemma overview_key_apart_witness :
  "/auto/map.py/07080105/10.0"
  <> "/auto/map.py/070801050306/20200601/20200601/0/avg_loss".
Proof.
  apply (overview_key_apart Sample.externals Sample.overview_ok Sample.june1);
    reflexivity.
Defined.

(** ** The title and the unit suffix *)

Lemma strftime_md_is (t : date) (m d : Z) :
  valid_date t = true -> 0 <= m < 100 -> 0 <= d < 100 ->
  (strftime_md t =s? pad2 m ++ pad2 d) = true <-> month t = m /\ day t = d.
Proof.
  intros V Hm Hd. destruct (valid_date_range t V) as [Rm Rd].
  rewrite String.eqb_eq. unfold strftime_md. split.
  - intros H. apply append_eq_length in H; [ | reflexivity ].
    destruct H as [H1 H2].
    apply pad2_inj in H1; auto. apply pad2_inj in H2; auto.
  - intros [-> ->]. reflexivity.
Qed.

(** X3: the unit suffix is [/yr] exactly when the two dates differ and the
    averaged flag is set, and it is empty otherwise; the title is the one of
    whole years exactly when, besides, the start date is a first of January
    and the end date a 31st of December; equal dates give the title of a
    single day whatever the flag. *)
Theorem make_title_modes (ts ts2 : date) (e : environ) :
  valid_date ts = true -> valid_date ts2 = true ->
  (snd (make_title ts ts2 e) = "/yr" <-> ts <> ts2 /\ e_averaged e = true)
  /\ (snd (make_title ts ts2 e) <> "/yr" -> snd (make_title ts ts2 e) = "")
  /\ (fst (make_title ts ts2 e) = TitleAveragedYears (year ts) (year ts2) <->
      ts <> ts2 /\ e_averaged e = true
      /\ month ts = 1 /\ day ts = 1 /\ month ts2 = 12 /\ day ts2 = 31)
  /\ (ts = ts2 -> fst (make_title ts ts2 e) = TitleDay ts).
Proof.
  intros V1 V2.
  pose proof (strftime_md_is ts 1 1 V1 ltac:(lia) ltac:(lia)) as J.
  pose proof (strftime_md_is ts2 12 31 V2 ltac:(lia) ltac:(lia)) as D.
  change (pad2 1 ++ pad2 1) with "0101" in J.
  change (pad2 12 ++ pad2 31) with "1231" in D.
  unfold make_title.
  destruct (date_eqb ts ts2) eqn:E; cbn [negb].
  - apply date_eqb_eq in E. subst ts2. cbn [fst snd].
    split; [ split; [ discriminate | intros [H _]; now contradiction H ] | ].
    split; [ reflexivity | ].
    split; [ split; [ discriminate | intros [H _]; now contradiction H ] | ].
    reflexivity.
  - assert (N : ts <> ts2).
    { intros H. apply date_eqb_eq in H. congruence. }
    destruct (e_averaged e).
    + destruct (strftime_md ts =s? "0101") eqn:A;
        destruct (strftime_md ts2 =s? "1231") eqn:B; cbn [andb fst snd].
      * destruct (proj1 J eq_refl) as [M1 D1].
        destruct (proj1 D eq_refl) as [M2 D2].
        split; [ tauto | ]. split; [ intros H; now contradiction H | ].
        split; [ tauto | intros H; contradiction ].
      * split; [ tauto | ]. split; [ intros H; now contradiction H | ].
        split; [ | intros H; contradiction ].
        split; [ discriminate | ].
        intros (_ & _ & _ & _ & M2 & D2).
        pose proof (proj2 D (conj M2 D2)). discriminate.
      * split; [ tauto | ]. split; [ intros H; now contradiction H | ].
        split; [ | intros H; contradiction ].
        split; [ discriminate | ].
        intros (_ & _ & M1 & D1 & _).
        pose proof (proj2 J (conj M1 D1)). discriminate.
      * split; [ tauto | ]. split; [ intros H; now contradiction H | ].
        split; [ | intros H; contradiction ].
        split; [ discriminate | ].
        intros (_ & _ & M1 & D1 & _).
        pose proof (proj2 J (conj M1 D1)). discriminate.
    + cbn [fst snd].
      split; [ split; [ discriminate | intros [_ H]; discriminate ] | ].
      split; [ reflexivity | ].
      split; [ | intros H; contradiction ].
      split; [ discriminate | intros (_ & H & _); discriminate ].
Qed.

Lemma make_title_modes_witness :
  valid_date (mkdate 2016 1 1) = true /\ valid_date (mkdate 2022 12 31) = true
  /\ make_title (mkdate 2016 1 1) (mkdate 2022 12 31)
                (Sample.with_flags
                   (Sample.request "avg_loss" None 2016 1 1
                                   (Some 2022) (Some 12) (Some 31))
                   false true false false)
     = (TitleAveragedYears 2016 2022, "/yr").
Proof.
  split; [ reflexivity | ]. split; [ reflexivity | ].
  destruct (make_title_modes
              (mkdate 2016 1 1) (mkdate 2022 12 31)
              (Sample.with_flags
                 (Sample.request "avg_loss" None 2016 1 1
                                 (Some 2022) (Some 12) (Some 31))
                 false true false false)
              eq_refl eq_refl) as (U & _ & T & _).
  apply injective_projections.
  - apply (proj2 T). split; [ discriminate | ].
    split; [ reflexivity | ]. split; [ reflexivity | ].
    split; [ reflexivity | ]. split; reflexivity.
  - apply (proj2 U). split; [ discriminate | reflexivity ].
Defined.

(** ** What a finished map shows *)

Lemma bind_log_none {A B : Type} (f : event -> bool) (m : M A)
  (k : A -> M B) :
  filter f (snd m) = [] -> (forall a, filter f (snd (k a)) = []) ->
  filter f (snd (bind m k)) = [].
Proof.
  destruct m as [[a | x] l]; simpl; intros H K; [ | exact H ].
  now rewrite filter_app, H, K.
Qed.

Lemma select_bins_log_labels (X : Externals) (ts ts2 : date) (v : string)
  (df : list df_row) :
  filter is_label_query (snd (select_bins X ts ts2 v df)) = [].
Proof.
  unfold select_bins. apply bind_log_none.
  - unfold base_ramp, list_get.
    destruct (date_eqb ts ts2); destruct (nth_error _ _); reflexivity.
  - intros bins. apply bind_log_none; [ | reflexivity ].
    destruct (percentile95 X (map df_data df)) as [p | ]; [ | reflexivity ].
    apply bind_log_none.
    + unfold last_item. destruct (rev bins); reflexivity.
    + intros top. destruct (Qgtb p top); [ | reflexivity ].
      apply bind_log_none; [ reflexivity | ].
      intros _. unfold set_first. destruct (pretty_bins X 0 p); reflexivity.
Qed.

Lemma read_postgis_log_labels (conn : store) h12 lim ts ts2 scenario v dbcol e :
  filter is_label_query
    (snd (read_postgis conn h12 lim ts ts2 scenario v dbcol e)) = [].
Proof.
  unfold read_postgis. destruct (is_categorical v); [ reflexivity | ].
  destruct (e_averaged e); destruct (column v); reflexivity.
Qed.

Lemma label_scenario_log_all (scenario : Z) (conn : store) :
  filter is_label_query (snd (label_scenario scenario conn))
  = snd (label_scenario scenario conn).
Proof.
  unfold label_scenario. destruct (scenario =? 0); [ reflexivity | ].
  destruct (filter _ (scenarios conn)); reflexivity.
Qed.

Lemma append_nil_r (s : string) : s ++ "" = s.
Proof. induction s; simpl; congruence. Qed.

(** What a finished run of [make_map] puts around the data. *)
Lemma make_map_ok_annotations (X : Externals) (conn : store)
  (huc : option string) (ts ts2 : date) (scenario : Z) (v : string)
  (e : environ) (img : map_image) (l : list event) :
  make_map X conn huc ts ts2 scenario v e = (Ok img, l) ->
  img_title img = fst (make_title ts ts2 e)
  /\ (exists units, V2UNITS v = Some units
                    /\ img_units img = units ++ snd (make_title ts ts2 e))
  /\ label_scenario scenario conn = (Ok (img_label img), filter is_label_query l)
  /\ img_counties img = match huc with Some _ => true | None => false end
  /\ img_dpi img = e_dpi e
  /\ img_cmap img = (if (v =s? "qc_precip") || (v =s? "avg_runoff")
                     then James else DepErosion)
  /\ exists r rest, filter (fun r => sc_id r =? scenario) (scenarios conn)
                    = r :: rest.
Proof.
  unfold make_map. destruct (make_title ts ts2 e) as [t a]. intros H.
  apply bind_ok_inv in H. destruct H as (h12 & l1 & l1' & E1 & H & ->).
  apply bind_ok_inv in H. destruct H as (lastts & l2 & l2' & E2 & H & ->).
  apply bind_ok_inv in H. destruct H as ([] & l3 & l3' & E3 & H & ->).
  apply bind_ok_inv in H. destruct H as (dbcol & l4 & l4' & E4 & H & ->).
  apply bind_ok_inv in H. destruct H as (df & lq & l5' & E5 & H & ->).
  apply bind_ok_inv in H. destruct H as ([] & l6 & l6' & E6 & H & ->).
  apply bind_ok_inv in H. destruct H as (bins & lb & l7' & E7 & H & ->).
  apply bind_ok_inv in H. destruct H as (label & l8 & l8' & E8 & H & ->).
  apply bind_ok_inv in H. destruct H as (units & l9 & l9' & E9 & H & ->).
  destruct (draw_progress ts ts2 df e) as [avgval bar] eqn:Ep.
  apply bind_ok_inv in H. destruct H as (badge & la & l10' & E10 & H & ->).
  inversion H; subst img l10'; clear H.
  apply dict_get_ok in E4, E9. destruct E4 as [E4 ->], E9 as [E9 ->].
  pose proof (select_huc12_scenario_log conn scenario) as L1.
  pose proof (select_last_date_log X conn) as L2.
  pose proof (check_freshness_log ts ts2 lastts) as L3.
  pose proof (read_postgis_log_labels conn h12 (build_huclimiter huc e) ts ts2
                scenario v dbcol e) as L5.
  pose proof (select_bins_log_labels X ts ts2 v df) as L7.
  pose proof (label_scenario_log_all scenario conn) as L8.
  rewrite E1 in L1. rewrite E2 in L2. rewrite E3 in L3. rewrite E5 in L5.
  rewrite E7 in L7. rewrite E8 in L8.
  cbn [snd] in L1, L2, L3, L5, L7, L8. subst l1 l2 l3.
  pose proof (draw_cruse_ok _ _ _ _ E10) as [-> _].
  assert (L6 : l6 = []).
  { destruct df; cbn in E6; inversion E6; reflexivity. }
  subst l6.
  cbn [img_title img_units img_label img_counties img_dpi img_cmap fst snd].
  split; [ reflexivity | ]. split; [ exists units; auto | ].
  split.
  { rewrite E8. f_equal.
    cbn [app]. cbn [filter is_label_query].
    rewrite !filter_app, L5, L7, L8. cbn [filter app].
    now rewrite !app_nil_r. }
  split; [ reflexivity | ]. split; [ reflexivity | ]. split; [ reflexivity | ].
  unfold select_huc12_scenario in E1.
  destruct (filter (fun r => sc_id r =? scenario) (scenarios conn)) as [ | r rest].
  - cbn in E1. discriminate.
  - exists r, rest. reflexivity.
Qed.

(** X4: a finished map of a scenario other than 0 always carries the label
    of the first row of that scenario, and its query is in the trace; a map
    of scenario 0 carries none and asks for none.  The branch of
    [label_scenario] for a scenario without a row is never the one taken
    inside [make_map]. *)
Theorem label_always_drawn (X : Externals) (conn : store)
  (huc : option string) (ts ts2 : date) (scenario : Z) (v : string)
  (e : environ) (img : map_image) (l : list event) :
  make_map X conn huc ts ts2 scenario v e = (Ok img, l) ->
  (scenario = 0 ->
   img_label img = None /\ filter is_label_query l = [])
  /\ (scenario <> 0 ->
      exists r rest,
        filter (fun r => sc_id r =? scenario) (scenarios conn) = r :: rest
        /\ img_label img
           = Some ("Scenario " ++ str_int scenario ++ ": "
                   ++ str_opt (sc_label r))
        /\ filter is_label_query l = [SelectLabel scenario]).
Proof.
  intros H.
  destruct (make_map_ok_annotations _ _ _ _ _ _ _ _ _ _ H)
    as (_ & _ & Hl & _ & _ & _ & (r & rest & Hr)).
  unfold label_scenario in Hl. split.
  - intros ->. cbn in Hl. inversion Hl. auto.
  - intros N. apply Z.eqb_neq in N. rewrite N, Hr in Hl.
    cbn in Hl. inversion Hl as [[E1 E2]].
    exists r, rest. auto.
Qed.

Lemma label_always_drawn_witness :
  option_map img_label
    (value_of (make_map Sample.externals Sample.conn None (mkdate 2020 6 1)
                 (mkdate 2020 6 1) 36 "avg_loss" Sample.no_region))
  = Some (Some "Scenario 36: no-till everywhere").
Proof.
  pose proof (label_always_drawn Sample.externals Sample.conn None
                (mkdate 2020 6 1) (mkdate 2020 6 1) 36 "avg_loss"
                Sample.no_region _ _ eq_refl) as W.
  destruct W as [_ W]. destruct W as (r & rest & A & B & _);
    [ discriminate | ].
  inversion A. subst r.
  exact (f_equal (@Some (option string)) B).
Defined.

(** [label_scenario] never fails. *)
Lemma label_scenario_total (scenario : Z) (conn : store) :
  exists o, fst (label_scenario scenario conn) = Ok o.
Proof.
  unfold label_scenario. destruct (scenario =? 0); [ now exists None | ].
  destruct (filter _ (scenarios conn)); cbn; eauto.
Qed.







(** The whole trace of a finished run. *)
Lemma make_map_ok_trace (X : Externals) (conn : store)
  (huc : option string) (ts ts2 : date) (scenario : Z) (v : string)
  (e : environ) (img : map_image) (l : list event) :
  make_map X conn huc ts ts2 scenario v e = (Ok img, l) ->
  exists h12 dbcol,
    fst (select_huc12_scenario conn scenario) = Ok h12
    /\ V2MULTI v = Some dbcol
    /\ fst (read_postgis conn h12 (build_huclimiter huc e) ts ts2 scenario v
              dbcol e) = Ok (img_df img)
    /\ l = (SelectHuc12Scenario scenario :: SelectLastDate
            :: snd (read_postgis conn h12 (build_huclimiter huc e) ts ts2
                      scenario v dbcol e)
            ++ snd (select_bins X ts ts2 v (img_df img))
            ++ snd (label_scenario scenario conn))%list.
Proof.
  unfold make_map. destruct (make_title ts ts2 e) as [t a]. intros H.
  apply bind_ok_inv in H. destruct H as (h12 & l1 & l1' & E1 & H & ->).
  apply bind_ok_inv in H. destruct H as (lastts & l2 & l2' & E2 & H & ->).
  apply bind_ok_inv in H. destruct H as ([] & l3 & l3' & E3 & H & ->).
  apply bind_ok_inv in H. destruct H as (dbcol & l4 & l4' & E4 & H & ->).
  apply bind_ok_inv in H. destruct H as (df & lq & l5' & E5 & H & ->).
  apply bind_ok_inv in H. destruct H as ([] & l6 & l6' & E6 & H & ->).
  apply bind_ok_inv in H. destruct H as (bins & lb & l7' & E7 & H & ->).
  apply bind_ok_inv in H. destruct H as (label & l8 & l8' & E8 & H & ->).
  apply bind_ok_inv in H. destruct H as (units & l9 & l9' & E9 & H & ->).
  destruct (draw_progress ts ts2 df e) as [avgval bar] eqn:Ep.
  apply bind_ok_inv in H. destruct H as (badge & la & l10' & E10 & H & ->).
  inversion H; subst img l10'; clear H.
  apply dict_get_ok in E4, E9. destruct E4 as [E4 ->], E9 as [E9 ->].
  pose proof (select_huc12_scenario_log conn scenario) as L1.
  pose proof (select_last_date_log X conn) as L2.
  pose proof (check_freshness_log ts ts2 lastts) as L3.
  rewrite E1 in L1. rewrite E2 in L2. rewrite E3 in L3.
  cbn [snd] in L1, L2, L3. subst l1 l2 l3.
  pose proof (draw_cruse_ok _ _ _ _ E10) as [-> _].
  assert (L6 : l6 = []).
  { destruct df; cbn in E6; inversion E6; reflexivity. }
  subst l6. cbn [img_df].
  exists h12, dbcol. rewrite E1, E5, E7, E8. cbn [fst snd].
  repeat split; auto.
  cbn [app]. now rewrite !app_nil_r.
Qed.

Lemma read_postgis_geoms (conn : store) (h12 : option Z) (lim : list clause)
  (ts ts2 : date) (scenario : Z) (v : string) (dbcol : Q) (e : environ)
  (df : list df_row) :
  fst (read_postgis conn h12 lim ts ts2 scenario v dbcol e) = Ok df ->
  Permutation (map df_geom df)
              (map simple_geom (filter (in_scope h12 lim) (huc12 conn)))
  /\ (is_categorical v = false -> Forall (fun r => df_data r <> None) df)
  /\ exists ev, snd (read_postgis conn h12 lim ts ts2 scenario v dbcol e) = [ev]
                /\ is_aggregate ev = true.
Proof.
  unfold read_postgis. destruct (is_categorical v).
  - cbn. intros H. inversion H.
    rewrite (Permutation_map df_geom (pg_order_perm _ _)).
    unfold read_categorical. rewrite map_map. cbn [df_geom].
    split; [ reflexivity | ]. split; [ discriminate | eauto ].
  - destruct (e_averaged e); destruct (column v) as [col | ]; cbn;
      intros H; inversion H.
    + rewrite (Permutation_map df_geom (pg_order_perm _ _)).
      unfold read_averaged, data_averaged.
      rewrite (select_joined_grouped conn (option_map (fun s => (s / 10)%Q))).
      rewrite map_map. cbn [df_geom].
      split; [ reflexivity | ]. split; [ | eauto ].
      intros _. apply pg_order_Forall. apply Forall_forall. intros r Hr.
      apply in_map_iff in Hr. destruct Hr as (i & <- & _). discriminate.
    + rewrite (Permutation_map df_geom (pg_order_perm _ _)).
      unfold read_period, data_period.
      rewrite (select_joined_grouped conn (fun s => s)).
      rewrite map_map. cbn [df_geom].
      split; [ reflexivity | ]. split; [ | eauto ].
      intros _. apply pg_order_Forall. apply Forall_forall. intros r Hr.
      apply in_map_iff in Hr. destruct Hr as (i & <- & _). discriminate.
Qed.

Lemma select_bins_log_queries (X : Externals) (ts ts2 : date) (v : string)
  (df : list df_row) :
  filter is_aggregate (snd (select_bins X ts ts2 v df)) = [].
Proof.
  unfold select_bins. apply bind_log_none.
  - unfold base_ramp, list_get.
    destruct (date_eqb ts ts2); destruct (nth_error _ _); reflexivity.
  - intros bins. apply bind_log_none; [ | reflexivity ].
    destruct (percentile95 X (map df_data df)) as [p | ]; [ | reflexivity ].
    apply bind_log_none.
    + unfold last_item. destruct (rev bins); reflexivity.
    + intros top. destruct (Qgtb p top); [ | reflexivity ].
      apply bind_log_none; [ reflexivity | ].
      intros _. unfold set_first. destruct (pretty_bins X 0 p); reflexivity.
Qed.

Lemma label_scenario_log_queries (scenario : Z) (conn : store) :
  filter is_aggregate (snd (label_scenario scenario conn)) = [].
Proof.
  unfold label_scenario. destruct (scenario =? 0); [ reflexivity | ].
  destruct (filter _ (scenarios conn)); reflexivity.
Qed.

(** X6: a finished map has exactly one row per region of the full region
    set, the regions of the geometry scenario named in the row of the
    scenario that pass the region filters, in the order of the database, and
    at least one; it took exactly one aggregate query; and for a continuous
    variable no row is without a value. *)
Theorem one_row_per_region (X : Externals) (conn : store)
  (huc : option string) (ts ts2 : date) (scenario : Z) (v : string)
  (e : environ) (img : map_image) (l : list event) :
  make_map X conn huc ts ts2 scenario v e = (Ok img, l) ->
  exists srow,
    scenario_row_of conn scenario = Some srow
    /\ Permutation
         (map df_geom (img_df img))
         (map simple_geom
            (filter (region_selected (sc_huc12_scenario srow) huc e)
                    (huc12 conn)))
    /\ img_df img <> []
    /\ List.length (filter is_aggregate l) = 1%nat
    /\ (is_categorical v = false ->
        Forall (fun r => df_data r <> None) (img_df img)).
Proof.
  intros H.
  destruct (make_map_ok_inv _ _ _ _ _ _ _ _ _ _ H)
    as (_ & _ & _ & df & _ & _ & _ & _ & _ & _ & _ & _ & Hne & _ & Hdf & _).
  destruct (make_map_ok_trace _ _ _ _ _ _ _ _ _ _ H)
    as (h12 & dbcol & Hs & Hm & Hq & ->).
  destruct (read_postgis_geoms _ _ _ _ _ _ _ _ _ _ Hq)
    as (Hg & Hd & ev & Hev & Hag).
  destruct (select_huc12_scenario_ok _ _ _ Hs) as (srow & Hrow & ->).
  exists srow. split; [ exact Hrow | ].
  split; [ rewrite <- filter_in_scope; exact Hg | ].
  split; [ congruence | ]. split; [ | exact Hd ].
  rewrite Hev. cbn [filter is_aggregate app].
  rewrite Hag, filter_app, select_bins_log_queries, label_scenario_log_queries.
  reflexivity.
Qed.

Lemma one_row_per_region_witness :
  match
    value_of (make_map Sample.externals Cases.by_value None (mkdate 2020 6 1)
                (mkdate 2020 6 1) 0 "avg_loss" Sample.no_region)
  with
  | Some img =>
      map df_geom (img_df img)
      = ["POLYGON 070200010101"; "POLYGON 070801050307";
         "POLYGON 070801050306"]
      /\ Permutation
           (map df_geom (img_df img))
           ["POLYGON 070801050306"; "POLYGON 070801050307";
            "POLYGON 070200010101"]
  | None => False
  end.
Proof.
  destruct (make_map Sample.externals Cases.by_value None (mkdate 2020 6 1)
              (mkdate 2020 6 1) 0 "avg_loss" Sample.no_region)
    as [[img | x] l] eqn:H.
  - destruct (one_row_per_region _ _ _ _ _ _ _ _ img l H)
      as (srow & A & B & _).
    injection A as <-.
    split; [ | exact B ].
    vm_compute in H. injection H as <- _. reflexivity.
  - exfalso. vm_compute in H. discriminate H.
Defined.

Lemma read_postgis_known (conn : store) (h12 : option Z) (lim : list clause)
  (ts ts2 : date) (scenario : Z) (v : string) (dbcol d : Q) (e : environ) :
  V2MULTI v = Some d ->
  exists df ev,
    read_postgis conn h12 lim ts ts2 scenario v dbcol e = (Ok df, [ev])
    /\ is_aggregate ev = true.
Proof.
  unfold read_postgis, is_categorical, column, V2MULTI.
  destruct (v =s? "dt") eqn:Edt; [ cbn; eauto | ].
  destruct (v =s? "slp") eqn:Eslp; [ cbn; eauto | ].
  cbn [orb].
  destruct (v =s? "avg_loss");
    [ intros _; destruct (e_averaged e); cbn; eauto | ].
  destruct (v =s? "qc_precip");
    [ intros _; destruct (e_averaged e); cbn; eauto | ].
  destruct (v =s? "avg_delivery");
    [ intros _; destruct (e_averaged e); cbn; eauto | ].
  destruct (v =s? "avg_runoff");
    [ intros _; destruct (e_averaged e); cbn; eauto | ].
  discriminate.
Qed.

(** X7: when the scenario row and the marker are read, the dates pass the
    gate and the variable is known, a request whose region filters leave no
    region ends in the NoData failure of an empty result, after exactly one
    aggregate query: there is no map without regions. *)
Theorem empty_scope_no_data (X : Externals) (conn : store)
  (huc : option string) (ts ts2 : date) (scenario : Z) (v : string)
  (e : environ) (h12 : option Z) (lastts : date) (dbcol : Q) :
  select_huc12_scenario conn scenario
  = (Ok h12, [SelectHuc12Scenario scenario]) ->
  select_last_date X conn = (Ok lastts, [SelectLastDate]) ->
  date_gtb ts lastts || date_gtb ts2 lastts || date_ltb ts floor_date = false ->
  V2MULTI v = Some dbcol ->
  filter (in_scope h12 (build_huclimiter huc e)) (huc12 conn) = [] ->
  fst (make_map X conn huc ts ts2 scenario v e)
  = Err (NoDataFound empty_message)
  /\ List.length (filter is_aggregate
                    (snd (make_map X conn huc ts ts2 scenario v e))) = 1%nat.
Proof.
  intros Hs Hm C Hv Hnone.
  destruct (read_postgis_known conn h12 (build_huclimiter huc e) ts ts2
              scenario v dbcol dbcol e Hv) as (df & ev & Hq & Hag).
  assert (Hdf : df = []).
  { pose proof (read_postgis_geoms conn h12 (build_huclimiter huc e) ts ts2
                  scenario v dbcol e df) as G.
    rewrite Hq in G. destruct (G eq_refl) as (G1 & _).
    rewrite Hnone in G1. cbn [map] in G1. symmetry in G1.
    apply Permutation_nil in G1. destruct df; [ reflexivity | discriminate ]. }
  subst df.
  unfold make_map. destruct (make_title ts ts2 e) as [t a].
  rewrite (bind_ok _ _ _ _ Hs). cbv beta.
  rewrite (bind_ok _ _ _ _ Hm). cbv beta.
  unfold check_freshness. fold floor_date. rewrite C, Hv.
  cbn [ret dict_get bind fst snd app].
  rewrite Hq. cbn [bind fst snd app raise filter is_aggregate].
  rewrite Hag. split; reflexivity.
Qed.

Lemma empty_scope_no_data_witness :
  fst (make_map Sample.externals Sample.conn (Some "10240001")
         (mkdate 2020 6 1) (mkdate 2020 6 1) 0 "avg_loss" Sample.june1)
  = Err (NoDataFound empty_message).
Proof.
  apply (empty_scope_no_data Sample.externals Sample.conn (Some "10240001")
           (mkdate 2020 6 1) (mkdate 2020 6 1) 0 "avg_loss" Sample.june1
           (Some 0) (mkdate 2020 6 30) (4463 # 1000)%Q); reflexivity.
Defined.

(** X8: a variable that is in none of the tables ends every run of
    [make_map] in a failure, and no aggregate query is issued for it; past
    the gate the failure is a KeyError. *)
Theorem unknown_variable_rejected (X : Externals) (conn : store)
  (huc : option string) (ts ts2 : date) (scenario : Z) (v : string)
  (e : environ) :
  V2MULTI v = None ->
  (forall img, fst (make_map X conn huc ts ts2 scenario v e) <> Ok img)
  /\ filter is_aggregate (snd (make_map X conn huc ts ts2 scenario v e)) = []
  /\ (forall h12 lastts,
        select_huc12_scenario conn scenario
        = (Ok h12, [SelectHuc12Scenario scenario]) ->
        select_last_date X conn = (Ok lastts, [SelectLastDate]) ->
        date_gtb ts lastts || date_gtb ts2 lastts || date_ltb ts floor_date
        = false ->
        make_map X conn huc ts ts2 scenario v e
        = (Err KeyError, [SelectHuc12Scenario scenario; SelectLastDate])).
Proof.
  intros Hv. split; [ | split ].
  - intros img H.
    destruct (make_map X conn huc ts ts2 scenario v e) as [r l] eqn:E.
    cbn in H. subst r.
    destruct (make_map_ok_inv _ _ _ _ _ _ _ _ _ _ E)
      as (_ & _ & d & _ & _ & _ & _ & _ & _ & _ & Hd & _).
    congruence.
  - unfold make_map. destruct (make_title ts ts2 e) as [t a].
    apply bind_log_none.
    { now rewrite select_huc12_scenario_log. }
    intros h12. apply bind_log_none.
    { now rewrite select_last_date_log. }
    intros lastts. apply bind_log_none.
    { now rewrite check_freshness_log. }
    intros _. rewrite Hv. reflexivity.
  - intros h12 lastts Hs Hm C.
    unfold make_map. destruct (make_title ts ts2 e) as [t a].
    rewrite (bind_ok _ _ _ _ Hs). cbv beta.
    rewrite (bind_ok _ _ _ _ Hm). cbv beta.
    unfold check_freshness. fold floor_date. rewrite C, Hv. reflexivity.
Qed.

Lemma unknown_variable_rejected_witness :
  make_map Sample.externals Sample.conn None (mkdate 2020 6 1)
    (mkdate 2020 6 1) 0 "sed_yield" Sample.no_region
  = (Err KeyError, [SelectHuc12Scenario 0; SelectLastDate]).
Proof.
  apply (proj2 (proj2 (unknown_variable_rejected Sample.externals Sample.conn
                         None (mkdate 2020 6 1) (mkdate 2020 6 1) 0
                         "sed_yield" Sample.no_region eq_refl))
           (Some 0) (mkdate 2020 6 30)); reflexivity.
Defined.

(** ** The region filters *)

Lemma build_huclimiter_odd (h : string) (e : environ) :
  String.length h <> 8%nat -> String.length h <> 12%nat ->
  build_huclimiter (Some h) e = build_huclimiter None e.
Proof.
  intros H8 H12. unfold build_huclimiter.
  apply Nat.eqb_neq in H8, H12. now rewrite H8, H12.
Qed.

(** X9: a region text that is neither 8 nor 12 characters long filters
    nothing: the run of [make_map] is the run of the same request without a
    region, trace and failures included, and the finished map differs only in
    that counties and cities are drawn. *)
Theorem odd_huc_ignored (X : Externals) (conn : store) (h : string)
  (ts ts2 : date) (scenario : Z) (v : string) (e : environ) :
  String.length h <> 8%nat -> String.length h <> 12%nat ->
  make_map X conn (Some h) ts ts2 scenario v e
  = map_M (with_counties true) (make_map X conn None ts ts2 scenario v e)
  /\ (forall img l,
        make_map X conn None ts ts2 scenario v e = (Ok img, l) ->
        img_counties img = false).
Proof.
  intros H8 H12. split.
  - unfold make_map. rewrite (build_huclimiter_odd h e H8 H12).
    destruct (make_title ts ts2 e) as [t a]. unfold map_M.
    destruct (select_huc12_scenario conn scenario) as [[h12 | x] l1];
      cbn [bind fst snd]; [ | reflexivity ].
    destruct (select_last_date X conn) as [[lastts | x] l2];
      cbn [bind fst snd]; [ | reflexivity ].
    destruct (check_freshness ts ts2 lastts) as [[[] | x] l3];
      cbn [bind fst snd]; [ | reflexivity ].
    destruct (dict_get (V2MULTI v)) as [[dbcol | x] l4];
      cbn [bind fst snd]; [ | reflexivity ].
    destruct (read_postgis conn h12 (build_huclimiter None e) ts ts2 scenario
                v dbcol e) as [[df | x] l5];
      cbn [bind fst snd]; [ | reflexivity ].
    destruct (match df with
              | [] => raise (NoDataFound empty_message)
              | _ :: _ => ret tt
              end) as [[[] | x] l6];
      cbn [bind fst snd]; [ | reflexivity ].
    destruct (select_bins X ts ts2 v df) as [[bins | x] l7];
      cbn [bind fst snd]; [ | reflexivity ].
    destruct (label_scenario scenario conn) as [[label | x] l8];
      cbn [bind fst snd]; [ | reflexivity ].
    destruct (dict_get (V2UNITS v)) as [[units | x] l9];
      cbn [bind fst snd]; [ | reflexivity ].
    destruct (draw_progress ts ts2 df e) as [avgval bar].
    destruct (draw_cruse avgval e) as [[badge | x] l10];
      cbn [bind fst snd]; reflexivity.
  - intros img l H.
    now destruct (make_map_ok_annotations _ _ _ _ _ _ _ _ _ _ H)
      as (_ & _ & _ & Hc & _).
Qed.

Lemma odd_huc_ignored_witness :
  make_map Sample.externals Sample.conn (Some "0708010503")
    (mkdate 2020 6 1) (mkdate 2020 6 1) 0 "avg_loss" Sample.no_region
  = map_M (with_counties true)
      (make_map Sample.externals Sample.conn None
         (mkdate 2020 6 1) (mkdate 2020 6 1) 0 "avg_loss" Sample.no_region).
Proof.
  apply (odd_huc_ignored Sample.externals Sample.conn "0708010503");
    discriminate.
Defined.

(** X10: a region passes the filters of a request exactly when it belongs to
    the geometry scenario, matches the region text (its first eight
    characters for a text of 8, the whole for a text of 12, anything
    otherwise), and its states match IA when [iowa] is set and MN when [mn] is
    set: with both flags set both must match. *)
Theorem scope_is_a_conjunction (h12s : option Z) (huc : option string)
  (e : environ) (i : huc12_row) :
  in_scope h12s (build_huclimiter huc e) i = true <->
  h12s = Some (h_scenario i)
  /\ huc_clause_holds huc i = true
  /\ (e_iowa e = true -> imatch (states i) "IA" = true)
  /\ (e_mn e = true -> imatch (states i) "MN" = true).
Proof.
  rewrite in_scope_flags. unfold region_selected. rewrite !andb_true_iff.
  assert (S : match h12s with Some s => h_scenario i =? s | None => false end
              = true <-> h12s = Some (h_scenario i)).
  { destruct h12s as [s | ]; [ | split; discriminate ].
    rewrite Z.eqb_eq. split; [ intros ->; reflexivity | ].
    intros H. inversion H. reflexivity. }
  rewrite S.
  destruct (e_iowa e), (e_mn e); cbn [implb]; intuition congruence.
Qed.

Lemma substring_length (n : nat) (s : string) :
  String.length (substring 0 n s) = Nat.min n (String.length s).
Proof.
  revert s. induction n as [ | n IH]; intros [ | c s]; cbn; auto.
Qed.

(** X11: the regions of a request for a 12-character region are among the
    regions of the request for its first eight characters, the flags being
    equal. *)
Theorem huc12_within_huc8 (h12s : option Z) (h : string) (e : environ)
  (i : huc12_row) :
  String.length h = 12%nat ->
  in_scope h12s (build_huclimiter (Some h) e) i = true ->
  in_scope h12s (build_huclimiter (Some (substring 0 8 h)) e) i = true.
Proof.
  intros L. rewrite !in_scope_flags. unfold region_selected.
  rewrite !andb_true_iff.
  intros [[[H1 H2] H3] H4]. repeat split; auto.
  unfold huc_clause_holds in *. rewrite L in H2. cbn in H2.
  rewrite substring_length, L. cbn.
  apply String.eqb_eq in H2. rewrite H2. apply String.eqb_refl.
Qed.

Lemma huc12_within_huc8_witness :
  in_scope (Some 0)
    (build_huclimiter (Some (substring 0 8 "070801050306")) Sample.june1)
    (Sample.region "070801050306" "IA" 2 (4 # 100)) = true.
Proof.
  apply (huc12_within_huc8 (Some 0) "070801050306"); reflexivity.
Defined.

(** ** Windows that select nothing *)

Lemma Forall2_left {A B : Type} (R : A -> B -> Prop) (P : A -> Prop)
  (l : list A) (l' : list B) :
  (forall x y, R x y -> P x) -> Forall2 R l l' -> Forall P l.
Proof. intros H F. induction F; constructor; eauto. Qed.

Lemma select_joined_empty (conn : store) (h12 : option Z) (lim : list clause)
  (dbcol : Q) :
  select_joined conn [] h12 lim dbcol
  = map (fun i => {| df_geom := simple_geom i;
                     df_data := Some (0 * dbcol)%Q |})
        (filter (in_scope h12 lim) (huc12 conn)).
Proof.
  unfold select_joined, left_join. cbn [filter].
  induction (huc12 conn) as [ | i regions IH]; [ reflexivity | ].
  cbn [flat_map app map filter fst snd]. cbn [flat_map] in IH.
  destruct (in_scope h12 lim i); cbn [map fst snd coalesce]; now rewrite IH.
Qed.

Lemma all_zero (conn : store) (h12 : option Z) (lim : list clause) (dbcol : Q) :
  Forall (fun row => exists q, df_data row = Some q /\ (q == 0)%Q)
    (map (fun i => {| df_geom := simple_geom i;
                      df_data := Some (0 * dbcol)%Q |})
         (filter (in_scope h12 lim) (huc12 conn))).
Proof.
  apply Forall_forall. intros row H. apply in_map_iff in H.
  destruct H as (i & <- & _). cbn. eexists. split; [ reflexivity | ring ].
Qed.

Lemma md_leb_trans (a b c : date) :
  md_leb a b = true -> md_leb b c = true -> md_leb a c = true.
Proof.
  unfold md_leb. intros H1 H2.
  destruct (Z.ltb_spec (month a) (month b)), (Z.eqb_spec (month a) (month b)),
    (Z.leb_spec (day a) (day b)), (Z.ltb_spec (month b) (month c)),
    (Z.eqb_spec (month b) (month c)), (Z.leb_spec (day b) (day c)),
    (Z.ltb_spec (month a) (month c)), (Z.eqb_spec (month a) (month c)),
    (Z.leb_spec (day a) (day c)); cbn in *; try discriminate; try reflexivity;
    lia.
Qed.

(** X12: when the end date is before the start date, a finished map of a
    continuous variable shows 0 for every region, with or without the averaged
    flag: no row lies between the two dates. *)
Theorem reversed_window_blank (X : Externals) (conn : store)
  (huc : option string) (ts ts2 : date) (scenario : Z) (v : string)
  (e : environ) (img : map_image) (l : list event) :
  make_map X conn huc ts ts2 scenario v e = (Ok img, l) ->
  is_categorical v = false -> date_ltb ts2 ts = true ->
  Forall (fun row => exists q, df_data row = Some q /\ (q == 0)%Q)
         (img_df img).
Proof.
  intros H Hc Hlt.
  destruct (make_map_ok_inv _ _ _ _ _ _ _ _ _ _ H)
    as (h12 & lastts & dbcol & df & lq & bins & lb & _ & _ & _ & _ & Hq & _
        & _ & Hdf & _).
  destruct (read_postgis_continuous _ _ _ _ _ _ _ _ _ _ _ Hc Hq)
    as (col & Hcol & Hr).
  assert (N : forall r, between_date (valid r) ts ts2 = false).
  { intros r. unfold between_date.
    destruct (date_leb ts (valid r)) eqn:A; [ | reflexivity ].
    destruct (date_leb (valid r) ts2) eqn:B; [ | reflexivity ].
    pose proof (date_leb_trans _ _ _ A B) as T.
    rewrite date_ltb_leb, T in Hlt. discriminate. }
  rewrite Hdf.
  destruct (e_averaged e); destruct Hr as [-> _].
  - apply pg_order_Forall. unfold read_averaged, data_averaged.
    rewrite filter_none.
    + cbn [group_by_huc_12 map nodup]. rewrite select_joined_empty.
      apply all_zero.
    + intros r _. rewrite N. now rewrite andb_false_r.
  - apply pg_order_Forall. unfold read_period, data_period.
    rewrite filter_none.
    + cbn [group_by_huc_12 map nodup]. rewrite select_joined_empty.
      apply all_zero.
    + intros r _. rewrite N. now rewrite andb_false_r.
Qed.

Lemma reversed_window_blank_witness :
  match value_of (make_map Sample.externals Sample.conn (Some "070801050306")
                    (mkdate 2020 6 2) (mkdate 2020 6 1) 0 "avg_loss"
                    Sample.june1) with
  | Some img =>
      Forall (fun row => exists q, df_data row = Some q /\ (q == 0)%Q)
             (img_df img)
  | None => False
  end.
Proof.
  destruct (make_map Sample.externals Sample.conn (Some "070801050306")
              (mkdate 2020 6 2) (mkdate 2020 6 1) 0 "avg_loss" Sample.june1)
    as [[img | x] l] eqn:H.
  - exact (reversed_window_blank _ _ _ _ _ _ _ _ img l H eq_refl eq_refl).
  - exfalso. vm_compute in H. discriminate H.
Defined.

(** X13: with the averaged flag, when the month and day of the start date
    come later in the year than those of the end date, a finished map of a
    continuous variable shows 0 for every region: the month-day range does
    not wrap around the end of the year. *)
Theorem averaged_range_does_not_wrap (X : Externals) (conn : store)
  (huc : option string) (ts ts2 : date) (scenario : Z) (v : string)
  (e : environ) (img : map_image) (l : list event) :
  make_map X conn huc ts ts2 scenario v e = (Ok img, l) ->
  is_categorical v = false -> e_averaged e = true ->
  valid_date ts = true -> valid_date ts2 = true ->
  Forall (fun r => valid_date (valid r) = true) (results_by_huc12 conn) ->
  md_leb ts ts2 = false ->
  Forall (fun row => exists q, df_data row = Some q /\ (q == 0)%Q)
         (img_df img).
Proof.
  intros H Hc Ha V1 V2 Vr Hmd.
  destruct (make_map_ok_inv _ _ _ _ _ _ _ _ _ _ H)
    as (h12 & lastts & dbcol & df & lq & bins & lb & _ & _ & _ & _ & Hq & _
        & _ & Hdf & _).
  destruct (read_postgis_continuous _ _ _ _ _ _ _ _ _ _ _ Hc Hq)
    as (col & Hcol & Hr).
  rewrite Ha in Hr. destruct Hr as [-> _]. rewrite Hdf.
  apply pg_order_Forall. unfold read_averaged, data_averaged.
  rewrite filter_none.
  - cbn [group_by_huc_12 map nodup]. rewrite select_joined_empty.
    apply all_zero.
  - intros r Hr. rewrite Forall_forall in Vr. specialize (Vr r Hr).
    destruct (valid_date_range _ V1), (valid_date_range _ V2),
      (valid_date_range _ Vr).
    unfold between_text. rewrite !strftime_md_leb by assumption.
    destruct (md_leb ts (valid r)) eqn:A;
      [ | now rewrite andb_false_r ].
    destruct (md_leb (valid r) ts2) eqn:B;
      [ | now rewrite !andb_false_r ].
    rewrite (md_leb_trans _ _ _ A B) in Hmd. discriminate.
Qed.

Lemma averaged_range_does_not_wrap_witness :
  match value_of (make_map Sample.externals Sample.conn (Some "070801050306")
                    (mkdate 2018 9 1) (mkdate 2020 6 2) 0 "avg_loss"
                    (Sample.with_flags Sample.june1 false true false false))
  with
  | Some img =>
      Forall (fun row => exists q, df_data row = Some q /\ (q == 0)%Q)
             (img_df img)
  | None => False
  end.
Proof.
  destruct (make_map Sample.externals Sample.conn (Some "070801050306")
              (mkdate 2018 9 1) (mkdate 2020 6 2) 0 "avg_loss"
              (Sample.with_flags Sample.june1 false true false false))
    as [[img | x] l] eqn:H.
  - apply (averaged_range_does_not_wrap _ _ _ _ _ _ _ _ img l H);
      try reflexivity.
    repeat constructor.
  - exfalso. vm_compute in H. discriminate H.
Defined.

(** ** Categorical variables *)




(** ** The progress bar *)

Lemma days_before_year_mono (y y' : Z) : y <= y' -> days_before_year y <= days_before_year y'.
Proof. unfold days_before_year. intros H. lia. Qed.

Lemma days_before_year_step (y : Z) :
  days_before_year (y + 1)
  = days_before_year y + 365 + (if is_leap y then 1 else 0).
Proof.
  unfold days_before_year, is_leap.
  replace (y + 1 - 1) with y by lia.
  destruct (Z.eqb_spec (y mod 4) 0), (Z.eqb_spec (y mod 100) 0),
    (Z.eqb_spec (y mod 400) 0); cbn; lia.
Qed.

Lemma proportion_negative (d : Z) :
  (inject_Z d / 365 * (698 # 1000) < 0)%Q <-> d < 0.
Proof.
  unfold Qlt, Qdiv, Qmult, Qinv, inject_Z. cbn [Qnum Qden]. lia.
Qed.
Lemma proportion_over (d : Z) :
  ((698 # 1000) < inject_Z d / 365 * (698 # 1000))%Q <-> 365 < d.
Proof.
  unfold Qlt, Qdiv, Qmult, Qinv, inject_Z. cbn [Qnum Qden]. lia.
Qed.

Ltac dbm_norm :=
  unfold days_before_month;
  repeat match goal with
         | |- context [Z.to_nat ?z] =>
             let n := eval vm_compute in (Z.to_nat z) in
             change (Z.to_nat z) with n
         end;
  cbn [days_before_month_aux]; unfold days_in_month; cbn.

Lemma month_cases (m : Z) :
  1 <= m <= 12 ->
  m = 1 \/ m = 2 \/ m = 3 \/ m = 4 \/ m = 5 \/ m = 6 \/ m = 7 \/ m = 8
  \/ m = 9 \/ m = 10 \/ m = 11 \/ m = 12.
Proof. lia. Qed.

(** The days of the year before a month, and with it, by the leap day. *)
Lemma days_before_month_bounds (y m : Z) :
  1 <= m <= 12 ->
  0 <= days_before_month y m
  /\ days_before_month y m + days_in_month y m
     <= 365 + (if is_leap y then 1 else 0)
  /\ (m < 12 ->
      days_before_month y (m + 1) = days_before_month y m + days_in_month y m).
Proof.
  intros H. apply month_cases in H.
  repeat (destruct H as [-> | H]); try subst m;
    dbm_norm; destruct (is_leap y); lia.
Qed.

Lemma days_before_month_mono (y m m' : Z) :
  1 <= m -> m < m' -> m' <= 12 ->
  days_before_month y m + days_in_month y m <= days_before_month y m'.
Proof.
  intros H1 H2 H3.
  assert (Hm : 1 <= m <= 12) by lia. apply month_cases in Hm.
  assert (Hm' : 1 <= m' <= 12) by lia. apply month_cases in Hm'.
  repeat (destruct Hm as [-> | Hm]); try subst m;
    repeat (destruct Hm' as [-> | Hm']); try subst m'; try lia;
    dbm_norm; destruct (is_leap y); lia.
Qed.

(** Dates are ordered as their day numbers are. *)
Lemma date_compare_toordinal (a b : date) :
  valid_date a = true -> valid_date b = true ->
  date_compare a b = (toordinal a ?= toordinal b).
Proof.
  unfold valid_date, valid_ymd, date_compare, toordinal.
  intros Va Vb.
  assert (Ra : 1 <= month a <= 12
               /\ 1 <= day a <= days_in_month (year a) (month a)) by lia.
  assert (Rb : 1 <= month b <= 12
               /\ 1 <= day b <= days_in_month (year b) (month b)) by lia.
  clear Va Vb. destruct Ra as [Ma Da], Rb as [Mb Db].
  destruct (days_before_month_bounds (year a) (month a) Ma) as (A0 & A1 & _).
  destruct (days_before_month_bounds (year b) (month b) Mb) as (B0 & B1 & _).
  symmetry.
  destruct (Z.compare_spec (year a) (year b)) as [Ey | Ly | Gy].
  - rewrite Ey in *.
    destruct (Z.compare_spec (month a) (month b)) as [Em | Lm | Gm].
    + rewrite Em in *. destruct (Z.compare_spec (day a) (day b));
        [ apply Z.compare_eq_iff | apply Z.compare_lt_iff
        | apply Z.compare_gt_iff ]; lia.
    + pose proof (days_before_month_mono (year b) (month a) (month b)
                    ltac:(lia) Lm ltac:(lia)).
      apply Z.compare_lt_iff. lia.
    + pose proof (days_before_month_mono (year b) (month b) (month a)
                    ltac:(lia) Gm ltac:(lia)).
      apply Z.compare_gt_iff. lia.
  - pose proof (days_before_year_step (year a)).
    pose proof (days_before_year_mono (year a + 1) (year b) ltac:(lia)).
    apply Z.compare_lt_iff. lia.
  - pose proof (days_before_year_step (year b)).
    pose proof (days_before_year_mono (year b + 1) (year a) ltac:(lia)).
    apply Z.compare_gt_iff. lia.
Qed.

Lemma date_ltb_toordinal (a b : date) :
  valid_date a = true -> valid_date b = true ->
  date_ltb a b = true <-> toordinal a < toordinal b.
Proof.
  intros Va Vb. unfold date_ltb. rewrite (date_compare_toordinal a b Va Vb).
  rewrite <- Z.compare_lt_iff.
  destruct (toordinal a ?= toordinal b); split; congruence.
Qed.

(** X15: with [progressbar] set, a finished map has a bar whose length is the
    number of days from the start to the end date over 365, times 0.698; it is
    zero for a single day, negative exactly when the end date is before the
    start date, and longer than the background of width 0.698 exactly when the
    window spans more than 365 days; the value next to it is the mean of the
    data. *)
Theorem progress_bar_length (X : Externals) (conn : store)
  (huc : option string) (ts ts2 : date) (scenario : Z) (v : string)
  (e : environ) (img : map_image) (l : list event) :
  make_map X conn huc ts ts2 scenario v e = (Ok img, l) ->
  e_progressbar e = true -> valid_date ts = true -> valid_date ts2 = true ->
  exists pb,
    img_progress img = Some pb
    /\ pb_avgval pb = mean (map df_data (img_df img))
    /\ pb_label pb = (if e_averaged e then str_int (year ts) else "Avg")
    /\ pb_proportion pb
       = (inject_Z (toordinal ts2 - toordinal ts) / 365 * (698 # 1000))%Q
    /\ (ts = ts2 -> (pb_proportion pb == 0)%Q)
    /\ ((pb_proportion pb < 0)%Q <-> date_ltb ts2 ts = true)
    /\ ((698 # 1000 < pb_proportion pb)%Q
        <-> 365 < toordinal ts2 - toordinal ts).
Proof.
  intros H Hp V1 V2.
  destruct (make_map_ok_inv _ _ _ _ _ _ _ _ _ _ H)
    as (h12 & lastts & dbcol & df & lq & bins & lb & _ & _ & _ & _ & _ & _
        & _ & Hdf & _ & _ & _ & Hbar & _).
  unfold draw_progress in Hbar. rewrite Hp in Hbar. cbn [snd] in Hbar.
  eexists. split; [ exact Hbar | ].
  cbn [pb_avgval pb_label pb_proportion]. unfold days_between.
  rewrite Hdf.
  split; [ reflexivity | ]. split; [ reflexivity | ].
  split; [ reflexivity | ]. split; [ | split ].
  - intros ->. rewrite Z.sub_diag. reflexivity.
  - rewrite proportion_negative, (date_ltb_toordinal ts2 ts V2 V1). lia.
  - apply proportion_over.
Qed.

Lemma progress_bar_length_witness :
  match value_of (make_map Sample.externals Sample.conn None
                    (mkdate 2019 6 1) (mkdate 2020 6 2) 0 "avg_loss"
                    (Sample.with_flags
                       (Sample.request "avg_loss" None 2019 6 1
                          (Some 2020) (Some 6) (Some 2))
                       false false true false)) with
  | Some img =>
      exists pb, img_progress img = Some pb
                 /\ (698 # 1000 < pb_proportion pb)%Q
  | None => False
  end.
Proof.
  destruct (make_map Sample.externals Sample.conn None
              (mkdate 2019 6 1) (mkdate 2020 6 2) 0 "avg_loss"
              (Sample.with_flags
                 (Sample.request "avg_loss" None 2019 6 1
                    (Some 2020) (Some 6) (Some 2))
                 false false true false))
    as [[img | x] l] eqn:H.
  - destruct (progress_bar_length _ _ _ _ _ _ _ _ img l H
                eq_refl eq_refl eq_refl)
      as (pb & A & _ & _ & _ & _ & _ & B).
    exists pb. split; [ exact A | ]. apply B. reflexivity.
  - exfalso. vm_compute in H. discriminate H.
Defined.

(** ** The overview map *)

Lemma overview_rows_in (table : list named_region) (huc : option string)
  (r : named_region) :
  In r (overview_rows table huc) ->
  h_scenario (nr_row r) = 0
  /\ forall h, huc = Some h -> (8 <= String.length h)%nat ->
               substring 0 8 (huc_12 (nr_row r)) = substring 0 8 h.
Proof.
  unfold overview_rows. intros H. apply filter_In in H. destruct H as [_ H].
  apply andb_true_iff in H. destruct H as [H1 H2].
  split; [ now apply Z.eqb_eq | ].
  intros h -> L. apply Nat.leb_le in L. rewrite L in H2.
  now apply String.eqb_eq.
Qed.

(** X16: [make_overviewmap] fails with NoData when scenario 0 has no region
    under the first eight characters of the region text, and with a TypeError
    when regions are found but no region text is given; otherwise it draws
    every region found, at 100 dpi and with a margin of 1000 times the zoom,
    each region of scenario 0 and under those eight characters, in red with a
    label exactly when it is the region asked for and in tan otherwise. *)
Theorem make_overviewmap_outcome (table : list named_region)
  (huc : option string) (zoom : Q) :
  (overview_rows table huc = [] ->
   make_overviewmap table huc zoom = raise (NoDataFound empty_message))
  /\ (overview_rows table huc <> [] -> huc = None ->
      make_overviewmap table huc zoom = raise TypeError)
  /\ (forall h, huc = Some h -> overview_rows table huc <> [] ->
      exists o,
        make_overviewmap table huc zoom = ret o
        /\ ov_dpi o = 100 /\ ov_buffer o = (zoom * 1000)%Q
        /\ ov_counties o = true
        /\ Forall2
             (fun p r =>
                op_geom p = simple_geom (nr_row r)
                /\ h_scenario (nr_row r) = 0
                /\ ((8 <= String.length h)%nat ->
                    substring 0 8 (huc_12 (nr_row r)) = substring 0 8 h)
                /\ (op_fill p = Red <-> huc_12 (nr_row r) = h)
                /\ (op_fill p = Tan <-> huc_12 (nr_row r) <> h)
                /\ (op_label p <> None <-> huc_12 (nr_row r) = h))
             (ov_patches o) (overview_rows table huc)).
Proof.
  unfold make_overviewmap. split; [ | split ].
  - intros ->. reflexivity.
  - intros N ->. destruct (overview_rows table None); [ contradiction | ].
    reflexivity.
  - intros h -> N.
    destruct (overview_rows table (Some h)) as [ | r0 rest] eqn:E;
      [ contradiction | ].
    eexists. split; [ reflexivity | ].
    cbn [ov_dpi ov_buffer ov_counties ov_patches].
    repeat split.
    apply Forall2_map_left. intros r Hr.
    rewrite <- E in Hr. apply overview_rows_in in Hr. destruct Hr as [Hs Hp].
    cbn [op_geom op_fill op_label is_huc].
    split; [ reflexivity | ]. split; [ exact Hs | ].
    split; [ intros L; now apply Hp | ].
    destruct (String.eqb_spec (huc_12 (nr_row r)) h) as [Eq | Ne].
    + split; [ tauto | ]. split; [ split; [ discriminate | tauto ] | ].
      split; [ tauto | discriminate ].
    + split; [ split; [ discriminate | tauto ] | ].
      split; [ tauto | ]. split; [ intros K; now contradiction K | tauto ].
Qed.

Lemma make_overviewmap_outcome_witness :
  exists o,
    make_overviewmap Cases.table (Some "070801050306") 250 = ret o
    /\ ov_buffer o = (250 * 1000)%Q
    /\ map op_fill (ov_patches o) = [Red; Tan].
Proof.
  destruct (proj2 (proj2 (make_overviewmap_outcome
                            Cases.table (Some "070801050306") 250))
              "070801050306" eq_refl ltac:(discriminate))
    as (o & E & _ & B & _).
  exists o. split; [ exact E | ]. split; [ exact B | ].
  injection E as <-. reflexivity.
Defined.

Lemma substring_again (n : nat) (s : string) :
  substring 0 n (substring 0 n s) = substring 0 n s.
Proof.
  revert s. induction n as [ | n IH]; intros [ | c s]; cbn; auto.
  now rewrite IH.
Qed.

(** X17: the overview of a region text of eight characters or more shows the
    regions of its first eight characters: a 12-character region is drawn
    with its whole parent, where [make_map] would keep that region alone. *)
Theorem overview_draws_parent (table : list named_region) (h : string) :
  (8 <= String.length h)%nat ->
  overview_rows table (Some h) = overview_rows table (Some (substring 0 8 h))
  /\ forall r, In r (overview_rows table (Some h)) <->
               In r table /\ h_scenario (nr_row r) = 0
               /\ substring 0 8 (huc_12 (nr_row r)) = substring 0 8 h.
Proof.
  intros L. unfold overview_rows.
  rewrite substring_length, substring_again.
  assert (M : Nat.min 8 (String.length h) = 8%nat) by lia.
  rewrite M. apply Nat.leb_le in L. rewrite L. cbn [Nat.leb].
  split; [ reflexivity | ].
  intros r. rewrite filter_In, andb_true_iff, Z.eqb_eq, String.eqb_eq.
  tauto.
Qed.

Lemma overview_draws_parent_witness :
  map (fun r => huc_12 (nr_row r))
      (overview_rows Cases.table (Some "070801050306"))
  = ["070801050306"; "070801050307"].
Proof.
  rewrite (proj1 (overview_draws_parent Cases.table "070801050306"
                    ltac:(cbn; lia))).
  reflexivity.
Defined.

(** ** The request handler *)

Lemma bind_ret_map {A B : Type} (f : A -> B) (m : M A) :
  bind m (fun a => ret (f a)) = map_M f m.
Proof.
  destruct m as [[a | x] l]; unfold map_M; cbn; [ | reflexivity ].
  now rewrite app_nil_r.
Qed.

(** X18: an overview request without a region is served by [make_map] with
    the dates, the scenario and the variable of the request, while its cache
    key holds the zoom only: two such requests with one zoom share a key
    whatever their dates and variables. *)
Theorem overview_without_region (X : Externals) (conn : store)
  (table : list named_region) (e1 e2 : environ) (a1 b1 a2 b2 : date) :
  e_overview e1 = true -> e_overview e2 = true ->
  e_huc e1 = None -> e_huc e2 = None -> e_zoom e1 = e_zoom e2 ->
  get_ts_ts2 e1 = Ok (a1, b1) -> get_ts_ts2 e2 = Ok (a2, b2) ->
  get_mckey X e1 = get_mckey X e2
  /\ get_mckey X e1 = Ok ("/auto/map.py/None/" ++ str_float X (e_zoom e1))
  /\ application X conn table e1
     = map_M MapPng (make_map X conn None a1 b1 (e_scenario e1) (e_v e1) e1)
  /\ application X conn table e2
     = map_M MapPng (make_map X conn None a2 b2 (e_scenario e2) (e_v e2) e2).
Proof.
  intros O1 O2 H1 H2 Z T1 T2.
  unfold get_mckey, application.
  rewrite T1, T2, O1, O2, H1, H2, Z. cbn [andb str_opt].
  rewrite !bind_ret_map. repeat split.
Qed.

Lemma overview_without_region_witness :
  get_mckey Sample.externals (Cases.overview_no_huc "avg_loss" 2020)
  = get_mckey Sample.externals (Cases.overview_no_huc "qc_precip" 2019).
Proof.
  apply (overview_without_region Sample.externals Sample.conn Cases.table
           (Cases.overview_no_huc "avg_loss" 2020)
           (Cases.overview_no_huc "qc_precip" 2019)
           (mkdate 2020 6 1) (mkdate 2020 6 1)
           (mkdate 2019 6 1) (mkdate 2019 6 1)); reflexivity.
Defined.

(** X19: when the start fields, or the end fields completed from the start,
    make no calendar date, the handler ends in an OverflowError or in a
    ValueError before any query, and the cache key fails in the same way; the
    failure is a ValueError when all the fields fit a C int.  This holds in
    overview mode too, where the dates are not used. *)
Theorem bad_dates_rejected_first (X : Externals) (conn : store)
  (table : list named_region) (e : environ) :
  valid_ymd (e_year e) (e_month e) (e_day e)
  && valid_ymd (default_to (e_year e) (e_year2 e))
               (default_to (e_month e) (e_month2 e))
               (default_to (e_day e) (e_day2 e)) = false ->
  exists x,
    (x = ValueError \/ x = OverflowError)
    /\ application X conn table e = raise x
    /\ get_mckey X e = Err x
    /\ (fits_c_int (e_year e) && fits_c_int (e_month e)
        && fits_c_int (e_day e) = true ->
        fits_c_int (default_to (e_year e) (e_year2 e))
        && fits_c_int (default_to (e_month e) (e_month2 e))
        && fits_c_int (default_to (e_day e) (e_day2 e)) = true ->
        x = ValueError).
Proof.
  intros H. destruct (get_ts_ts2 e) as [[ts ts2] | x] eqn:G.
  - exfalso. apply get_ts_ts2_ok in G. destruct G as [G1 G2].
    apply new_date_ok in G1, G2. destruct G1 as [-> V1], G2 as [-> V2].
    unfold valid_date in V1, V2. cbn [year month day] in V1, V2.
    rewrite V1, V2 in H. discriminate.
  - exists x. destruct (get_ts_ts2_err e x G) as [A B].
    split; [ exact A | ]. unfold application, get_mckey. rewrite G.
    split; [ reflexivity | ]. split; [ reflexivity | exact B ].
Qed.

Lemma bad_dates_rejected_first_witness :
  application Sample.externals Sample.conn Cases.table
    (Sample.with_flags
       (Sample.request "avg_loss" (Some "07080105") 2021 2 30 None None None)
       true false false false)
  = raise ValueError.
Proof.
  destruct (bad_dates_rejected_first
              Sample.externals Sample.conn Cases.table
              (Sample.with_flags
                 (Sample.request "avg_loss" (Some "07080105") 2021 2 30
                                 None None None)
                 true false false false)
              eq_refl) as (x & _ & A & _ & B).
  rewrite A. now rewrite (B eq_refl eq_refl).
Defined.

(** ** The cropping table *)












Lemma bind_ret_l {A B : Type} (a : A) (k : A -> M B) : bind (ret a) k = k a.
Proof. unfold bind, ret. destruct (k a). reflexivity. Qed.











(** ** The slope plot *)

Lemma slope_percent_bound (b : Q) :
  Qle_bool (-1) b = true -> ((0 - b) * 100 <= 100)%Q.
Proof.
  intros H. apply Qle_bool_iff in H. destruct b as [n d].
  unfold Qle, Qminus, Qplus, Qopp, Qmult in *. cbn [Qnum Qden] in *. lia.
Qed.

Lemma slope_of_cases (slp : list segment) (p : slope) (l : list event) :
  slope_of slp = (Ok p, l) ->
  l = []
  /\ match p with
     | Plotted (Some pc) len => (pc <= 100)%Q /\ ~ (len == 0)%Q
     | Plotted None len => (len == 0)%Q
     | Skipped => True
     end.
Proof.
  unfold slope_of. intros H.
  apply bind_ok_inv in H. destruct H as (s & l1 & l1' & E1 & H & ->).
  apply bind_ok_inv in H. destruct H as (y & l2 & l2' & E2 & H & ->).
  apply bind_ok_inv in H. destruct H as (x & l3 & l3' & E3 & H & ->).
  apply last_item_ok in E1, E2, E3.
  destruct E1 as [-> _], E2 as [-> _], E3 as [-> _].
  destruct (Qeq_bool x 0) eqn:Z.
  - apply Qeq_bool_iff in Z.
    destruct (negb (Qle_bool 0 y)); inversion H; subst; auto.
  - destruct (negb (Qle_bool (-1) (y / x))) eqn:B; inversion H; subst; auto.
    split; [ reflexivity | ]. split.
    + apply slope_percent_bound. now apply negb_false_iff in B.
    + intros E. apply Qeq_bool_iff in E. congruence.
Qed.

Lemma slope_points_ok (files : list slp_file) (pts : list (float * Q))
  (l : list event) :
  slope_points files = (Ok pts, l) ->
  l = [] /\ Forall (fun f => exists slp, f = Ok slp) files
  /\ (List.length pts <= List.length files)%nat
  /\ Forall (fun p => match fst p with
                      | Some pc => (pc <= 100)%Q /\ ~ (snd p == 0)%Q
                      | None => (snd p == 0)%Q
                      end) pts.
Proof.
  revert pts l. induction files as [ | f rest IH]; intros pts l H.
  - cbn in H. inversion H. repeat split; auto.
  - cbn [slope_points] in H.
    apply bind_ok_inv in H. destruct H as (slp & l0 & l0' & E0 & H & ->).
    destruct f as [slp' | x]; [ | discriminate E0 ].
    injection E0 as -> <-.
    apply bind_ok_inv in H. destruct H as (p & l1 & l1' & E1 & H & ->).
    apply bind_ok_inv in H. destruct H as (res & l2 & l2' & E2 & H & ->).
    apply slope_of_cases in E1. destruct E1 as [-> Hp].
    destruct (IH _ _ E2) as (-> & Hread & Hlen & Hall).
    assert (Hread' : Forall (fun f => exists s, f = Ok s) (Ok slp :: rest))
      by (constructor; eauto).
    destruct p as [pc len | ]; inversion H; subst; cbn [List.length].
    + split; [ reflexivity | ]. split; [ exact Hread' | ].
      split; [ lia | ]. constructor; [ exact Hp | exact Hall ].
    + split; [ reflexivity | ]. split; [ exact Hread' | ].
      split; [ lia | exact Hall ].
Qed.

Lemma slope_points_skipped (files : list slp_file) :
  Forall (fun f => exists slp, f = Ok slp /\ slope_of slp = ret Skipped)
         files ->
  slope_points files = ret [].
Proof.
  induction 1 as [ | f rest (slp & -> & Hs) _ IH]; [ reflexivity | ].
  cbn [slope_points]. now rewrite bind_ret_l, Hs, bind_ret_l, IH, bind_ret_l.
Qed.

(** X21: [make_plot] fails as [os.chdir] does when the directory of the
    region cannot be entered.  When it hands points to the joint plot, the
    directory was entered and every file was read; there is at least one
    point and no more than one per slope file, and each has a slope of at
    most 100 percent (or no finite slope, when its length is 0).  With no
    file in the directory, or with every file steeper than 100 percent,
    [make_plot] ends in an IndexError instead of an empty plot. *)
Theorem plot_data_points (dir : result (list slp_file)) :
  (forall x, dir = Err x -> plot_data dir = raise x)
  /\ (forall pts l,
        plot_data dir = (Ok pts, l) ->
        exists files,
          dir = Ok files
          /\ Forall (fun f => exists slp, f = Ok slp) files
          /\ pts <> [] /\ (List.length pts <= List.length files)%nat
          /\ Forall (fun p => match fst p with
                              | Some pc => (pc <= 100)%Q /\ ~ (snd p == 0)%Q
                              | None => (snd p == 0)%Q
                              end) pts)
  /\ (forall files,
        dir = Ok files ->
        Forall (fun f => exists slp, f = Ok slp /\ slope_of slp = ret Skipped)
               files ->
        plot_data dir = raise IndexError).
Proof.
  split; [ | split ].
  - intros x ->. reflexivity.
  - intros pts l H. destruct dir as [files | x]; [ | discriminate H ].
    unfold plot_data in H.
    apply bind_ok_inv in H. destruct H as (res & l1 & l1' & E1 & H & ->).
    destruct res as [ | p res]; cbn in H; inversion H; subst.
    apply slope_points_ok in E1. destruct E1 as (_ & Hread & Hlen & Hall).
    exists files. split; [ reflexivity | ]. split; [ exact Hread | ].
    split; [ discriminate | auto ].
  - intros files -> Hs. unfold plot_data.
    now rewrite (slope_points_skipped files Hs), bind_ret_l.
Qed.

Lemma plot_data_points_witness :
  match value_of (plot_data Cases.slopes) with
  | Some pts =>
      pts <> [] /\ (List.length pts <= 3)%nat
      /\ Forall (fun p => match fst p with
                          | Some pc => (pc <= 100)%Q /\ ~ (snd p == 0)%Q
                          | None => (snd p == 0)%Q
                          end) pts
  | None => False
  end.
Proof.
  destruct (plot_data Cases.slopes) as [[pts | x] l] eqn:H.
  - destruct (proj1 (proj2 (plot_data_points Cases.slopes)) pts l H)
      as (files & E & _ & A & B & C).
    injection E as <-. split; [ exact A | ]. split; [ exact B | exact C ].
  - exfalso. vm_compute in H. discriminate H.
Defined.

(** ** The directories of the slope files *)

Lemma substring_split (n : nat) (s : string) :
  substring 0 n s ++ substring n (String.length s - n) s = s.
Proof.
  revert s. induction n as [ | n IH]; intros s.
  - cbn [substring]. rewrite Nat.sub_0_r.
    destruct s as [ | c s]; [ reflexivity | ].
    cbn [substring append String.length].
    clear. f_equal. induction s as [ | c' s IH]; [ reflexivity | ].
    cbn [substring String.length]. now rewrite IH.
  - destruct s as [ | c s]; [ reflexivity | ].
    cbn [substring append String.length Nat.sub]. now rewrite IH.
Qed.

(** X22: the two directory names that the slope files are read from make up
    the region text of the request, cut to twelve characters: the first holds
    at most eight of them and the second the rest. *)
Theorem slope_dirs_rejoin (huc12 : string) :
  fst (slope_dirs huc12) ++ snd (slope_dirs huc12) = substring 0 12 huc12
  /\ (String.length (fst (slope_dirs huc12)) <= 8)%nat
  /\ (String.length (snd (slope_dirs huc12)) <= 4)%nat
  /\ ((String.length huc12 <= 8)%nat ->
      fst (slope_dirs huc12) = huc12 /\ snd (slope_dirs huc12) = "").
Proof.
  unfold slope_dirs. cbn [fst snd].
  pose proof (substring_split 8 (substring 0 12 huc12)) as S.
  pose proof (substring_length 12 huc12) as L12.
  pose proof (substring_length 8 (substring 0 12 huc12)) as L8.
  split; [ exact S | ]. split; [ lia | ]. split.
  - apply (f_equal String.length) in S. rewrite length_append in S. lia.
  - intros Hs.
    assert (E : substring 0 12 huc12 = huc12).
    { pose proof (substring_split 12 huc12) as T.
      replace (String.length huc12 - 12)%nat with 0%nat in T by lia.
      assert (Z : forall s, substring 12 0 s = "").
      { clear. intros s. generalize 12%nat. intros n. revert s.
        induction n as [ | n IH]; intros [ | c s]; cbn; auto. }
      rewrite Z, append_nil_r in T. exact T. }
    rewrite E in *.
    assert (E8 : substring 0 8 huc12 = huc12).
    { apply (f_equal String.length) in S. rewrite length_append in S.
      assert (Z : String.length (substring 8 (String.length huc12 - 8) huc12)
                  = 0%nat) by lia.
      destruct (substring 8 (String.length huc12 - 8) huc12) eqn:R;
        [ | discriminate ].
      pose proof (substring_split 8 huc12) as T.
      rewrite R, append_nil_r in T. exact T. }
    split; [ exact E8 | ].
    pose proof (substring_split 8 huc12) as T. rewrite E8 in T.
    apply (f_equal String.length) in T. rewrite length_append in T.
    destruct (substring 8 (String.length huc12 - 8) huc12);
      [ reflexivity | cbn in T; lia ].
Qed.
